(** * Face-recognition attendance system: a shallow embedding of [webtopy.py]

    The development follows the Python module function by function:
    the helpers [generate_next_reg_no], [generate_email] and
    [get_working_days_in_month], then the request handlers [register],
    [recognize], [admin_user] and [check_status].  The single table [User]
    is a list of rows in insertion order; every [db.session.commit()] is
    recorded as a snapshot of the table, so that what is persisted, and when,
    can be stated.

    Python text is a sequence of code points, Python [float] is the kernel's
    binary64, Python [int] is [Z]. *)

From Stdlib Require Import ZArith NArith String Ascii List Sorted Bool Lia Floats.
Import ListNotations.
Open Scope Z_scope.
Set Warnings "-inexact-float".

(** ** Python text *)

(** A [str] is a sequence of Unicode code points. *)
Definition pystr := list N.

(** A literal of the source. *)
Definition py (s : string) : pystr := map N_of_ascii (list_ascii_of_string s).

Definition pystr_eqb (a b : pystr) : bool :=
  if list_eq_dec N.eq_dec a b then true else false.

(** [x in xs] for a collection of strings. *)
Definition str_in (x : pystr) (xs : list pystr) : bool := existsb (pystr_eqb x) xs.

(** [str.isspace] on one code point: the characters CPython classifies as
    whitespace, also what [\s] matches in a [str] pattern and what
    [str.strip()] and [str.split()] cut at. *)
Definition py_isspace (c : N) : bool :=
  ((9 <=? c) && (c <=? 13) || (28 <=? c) && (c <=? 32) || (c =? 133) || (c =? 160)
   || (c =? 5760) || (8192 <=? c) && (c <=? 8202) || (c =? 8232) || (c =? 8233)
   || (c =? 8239) || (c =? 8287) || (c =? 12288))%N.

Fixpoint lstrip (s : pystr) : pystr :=
  match s with
  | c :: t => if py_isspace c then lstrip t else s
  | [] => []
  end.

(** [s.strip()] *)
Definition strip (s : pystr) : pystr := rev (lstrip (rev (lstrip s))).

(** [s.split()]: the maximal runs of non-whitespace characters. [cur] is the
    run being read, reversed. *)
Fixpoint split_ws_from (cur : pystr) (s : pystr) : list pystr :=
  match s with
  | [] => match cur with [] => [] | _ => [rev cur] end
  | c :: t =>
      if py_isspace c
      then match cur with [] => split_ws_from [] t | _ => rev cur :: split_ws_from [] t end
      else split_ws_from (c :: cur) t
  end.

Definition split_ws (s : pystr) : list pystr := split_ws_from [] s.

(** [s.split(sep)] for a one-character separator: never empty. *)
Fixpoint split_on (sep : N) (s : pystr) : list pystr :=
  match s with
  | [] => [[]]
  | c :: t =>
      if (c =? sep)%N then [] :: split_on sep t
      else match split_on sep t with
           | p :: ps => (c :: p) :: ps
           | [] => [[c]]
           end
  end.

(** [sep.join(xs)] *)
Fixpoint join (sep : pystr) (xs : list pystr) : pystr :=
  match xs with
  | [] => []
  | [x] => x
  | x :: rest => x ++ sep ++ join sep rest
  end.

(** Decimal digits of a non-negative integer, most significant first. *)
Fixpoint digits_from (fuel : nat) (n : Z) (acc : pystr) : pystr :=
  match fuel with
  | O => acc
  | S f =>
      let acc' := Z.to_N (48 + n mod 10) :: acc in
      if n <? 10 then acc' else digits_from f (n / 10) acc'
  end.

Definition digits (n : Z) : pystr := digits_from (S (Z.to_nat (Z.log2 n))) n [].

(** [str(n)] for an [int]. *)
Definition str_int (n : Z) : pystr :=
  if n <? 0 then 45%N :: digits (- n) else digits n.

(** [s.zfill(width)]: zeros go after a leading sign. *)
Definition zfill (width : nat) (s : pystr) : pystr :=
  let pad := repeat 48%N (width - length s) in
  match s with
  | c :: t => if ((c =? 43) || (c =? 45))%N then c :: pad ++ t else pad ++ s
  | [] => pad
  end.

(** The value of a string of ASCII digits, read in base ten. *)
Definition is_ascii_digit (c : N) : bool := ((48 <=? c) && (c <=? 57))%N.

Definition digits_value (s : pystr) : Z :=
  fold_left (fun a c => 10 * a + (Z.of_N c - 48)) s 0.

(** SQLite's [lower()] and its [LIKE]: both fold the 26 ASCII capitals only. *)
Definition ascii_lower (c : N) : N :=
  if ((65 <=? c) && (c <=? 90))%N then (c + 32)%N else c.

Definition sql_lower (s : pystr) : pystr := map ascii_lower s.

(** [col LIKE 'prefix%'] where the prefix holds no wildcard. *)
Definition sql_like_prefix (prefix s : pystr) : bool :=
  pystr_eqb (sql_lower (firstn (length prefix) s)) (sql_lower prefix).

(** [s.encode('ascii', 'ignore').decode('utf-8')] *)
Definition encode_ascii_ignore (s : pystr) : pystr := filter (fun c => (c <? 128)%N) s.

(** [re.sub(r'[^a-z\s]', '', s)] *)
Definition keep_lower_and_space (s : pystr) : pystr :=
  filter (fun c => ((97 <=? c) && (c <=? 122))%N || py_isspace c) s.

(** ** Python floats *)

(** An [int] as an unrounded binary float. *)
Definition Z2SF (z : Z) : spec_float :=
  match z with
  | Z0 => S754_zero false
  | Zpos p => S754_finite false p 0
  | Zneg p => S754_finite true p 0
  end.

(** [a / b] on two [int]s: the quotient rounded once to binary64
    (the divisor is not zero wherever the source divides). *)
Definition py_truediv (a b : Z) : float := SF2Prim (SFdiv prec emax (Z2SF a) (Z2SF b)).

(** [max(0, x)]: [x] when it is greater than the first argument, else that
    argument (the [int] 0, which every later use reads as the number 0). *)
Definition py_max0 (x : float) : float := if (0 <? x)%float then x else 0%float.

(** The integer nearest to ten times a positive binary number [m * 2^e],
    ties to even: the digits that [round(x, 1)] and the format [.1f] keep. *)
Definition tenths (m : positive) (e : Z) : Z :=
  let t := 10 * Zpos m in
  match e with
  | Zneg k =>
      let d := 2 ^ Zpos k in
      let q := t / d in
      let r := t mod d in
      match 2 * r ?= d with
      | Lt => q
      | Gt => q + 1
      | Eq => if Z.even q then q else q + 1
      end
  | _ => t * 2 ^ e
  end.

(** [round(x, 1)] on a float: the binary64 nearest to the one-decimal number
    nearest to [x]. *)
Definition py_round1 (x : float) : float :=
  match Prim2SF x with
  | S754_finite s m e =>
      SF2Prim (SFdiv prec emax
                 (match tenths m e with
                  | Zpos n => S754_finite s n 0
                  | _ => S754_zero s
                  end)
                 (S754_finite false 10 0))
  | _ => x
  end.

(** [format(x, '.1f')] *)
Definition format_1f (x : float) : pystr :=
  match Prim2SF x with
  | S754_finite s m e =>
      let n := tenths m e in
      (if s then [45%N] else []) ++ str_int (n / 10) ++ [46%N] ++ str_int (n mod 10)
  | S754_zero s => (if s then [45%N] else []) ++ py "0.0"
  | S754_infinity s => (if s then [45%N] else []) ++ py "inf"
  | S754_nan => py "nan"
  end.

(** ** The calendar ([calendar.monthrange], [datetime.date]) *)

Definition isleap (year : Z) : bool :=
  (year mod 4 =? 0) && (negb (year mod 100 =? 0) || (year mod 400 =? 0)).

Definition mdays (month : Z) : Z :=
  nth (Z.to_nat month) [0; 31; 28; 31; 30; 31; 30; 31; 31; 30; 31; 30; 31] 0.

(** [monthrange(year, month)[1]]; an illegal month raises. *)
Definition monthrange_days (year month : Z) : option Z :=
  if (1 <=? month) && (month <=? 12)
  then Some (mdays month + (if (month =? 2) && isleap year then 1 else 0))
  else None.

Definition days_before_year (year : Z) : Z :=
  let y := year - 1 in y * 365 + y / 4 - y / 100 + y / 400.

Definition days_in_month (year month : Z) : Z :=
  if (month =? 2) && isleap year then 29 else mdays month.

Definition days_before_month (year month : Z) : Z :=
  nth (Z.to_nat month) [0; 0; 31; 59; 90; 120; 151; 181; 212; 243; 273; 304; 334] 0
  + (if (month >? 2) && isleap year then 1 else 0).

Record date := mk_date { d_year : Z; d_month : Z; d_day : Z }.

(** [date(year, month, day)]; out-of-range fields raise [ValueError]. *)
Definition date_of (year month day : Z) : option date :=
  if (1 <=? year) && (year <=? 9999) && (1 <=? month) && (month <=? 12)
     && (1 <=? day) && (day <=? days_in_month year month)
  then Some (mk_date year month day)
  else None.

Definition toordinal (d : date) : Z :=
  days_before_year (d_year d) + days_before_month (d_year d) (d_month d) + d_day d.

(** [d.weekday()]: Monday is 0, Sunday is 6. *)
Definition weekday (d : date) : Z := (toordinal d + 6) mod 7.

(** [range(a, b)] *)
Definition py_range (a b : Z) : list Z :=
  map (fun i => a + Z.of_nat i) (seq 0 (Z.to_nat (b - a))).

(** The loop of [get_working_days_in_month], [count] threaded through. *)
Fixpoint count_weekdays (year month : Z) (days : list Z) (count : Z) : option Z :=
  match days with
  | [] => Some count
  | day :: rest =>
      match date_of year month day with
      | None => None
      | Some d =>
          count_weekdays year month rest (if weekday d <? 5 then count + 1 else count)
      end
  end.

Definition get_working_days_in_month (year month : Z) : option Z :=
  match monthrange_days year month with
  | None => None
  | Some days_in_month => count_weekdays year month (py_range 1 (days_in_month + 1)) 0
  end.

(** ** Library functions that read the Unicode database or parse text

    [str.lower], [unicodedata.normalize('NFD', _)], [int(_)] on a string and
    [datetime.strptime(_, '%Y-%m-%d').date()] belong to the interpreter, not
    to the program: they are taken as an interface.  [None] stands for the
    [ValueError] the last two raise. *)
Class PyLib := {
  str_lower : pystr -> pystr;
  unicodedata_normalize_NFD : pystr -> pystr;
  py_int : pystr -> option Z;
  strptime_ymd : pystr -> option date
}.

Definition is_ascii (s : pystr) : bool := forallb (fun c => (c <? 128)%N) s.

(** What the interpreter's functions do on ASCII text: lowering folds the 26
    capitals, canonical decomposition changes nothing, and a non-empty string
    of digits is read in base ten.  (An [int] is unbounded; the cap that
    recent interpreters put on the length of a numeral, 4300 digits unless
    configured, is far above any number met here and is left out.) *)
Class PyLibLaws `{PyLib} : Prop := {
  str_lower_ascii : forall s, is_ascii s = true -> str_lower s = map ascii_lower s;
  normalize_NFD_ascii : forall s, is_ascii s = true -> unicodedata_normalize_NFD s = s;
  py_int_digits :
    forall s, s <> [] -> forallb is_ascii_digit s = true -> py_int s = Some (digits_value s)
}.

(** ** The table *)

(** A row of [class User(db.Model)]; a nullable column is an [option] and an
    [Integer] column holds a [Z]. *)
Record User := mk_User {
  id : Z;
  reg_no : pystr;
  name : pystr;
  dob : date;
  gender : pystr;
  email : pystr;
  attendance_count : Z;
  leaves_taken : Z;
  last_leave_month : option pystr;
  messages : option pystr;
  face_image : option pystr
}.

(** The rows in the order they were inserted: the order [Query.all()] and
    [Query.first()] see. *)
Definition table := list User.

(** Attribute assignments on a row object. *)
Definition set_attendance_count (n : Z) (u : User) : User :=
  {| id := id u; reg_no := reg_no u; name := name u; dob := dob u; gender := gender u;
     email := email u; attendance_count := n; leaves_taken := leaves_taken u;
     last_leave_month := last_leave_month u; messages := messages u;
     face_image := face_image u |}.

Definition set_leaves_taken (n : Z) (u : User) : User :=
  {| id := id u; reg_no := reg_no u; name := name u; dob := dob u; gender := gender u;
     email := email u; attendance_count := attendance_count u; leaves_taken := n;
     last_leave_month := last_leave_month u; messages := messages u;
     face_image := face_image u |}.

Definition set_last_leave_month (m : option pystr) (u : User) : User :=
  {| id := id u; reg_no := reg_no u; name := name u; dob := dob u; gender := gender u;
     email := email u; attendance_count := attendance_count u;
     leaves_taken := leaves_taken u; last_leave_month := m; messages := messages u;
     face_image := face_image u |}.

Definition set_messages (m : option pystr) (u : User) : User :=
  {| id := id u; reg_no := reg_no u; name := name u; dob := dob u; gender := gender u;
     email := email u; attendance_count := attendance_count u;
     leaves_taken := leaves_taken u; last_leave_month := last_leave_month u;
     messages := m; face_image := face_image u |}.

(** What [datetime.now()] and [date.today()] return, as far as it is read. *)
Record datetime := mk_datetime { dt_year : Z; dt_month : Z; dt_day : Z }.

(** [self.age()] *)
Definition age (today : datetime) (u : User) : Z :=
  dt_year today - d_year (dob u)
  - (if (dt_month today <? d_month (dob u))
        || ((dt_month today =? d_month (dob u)) && (dt_day today <? d_day (dob u)))
     then 1 else 0).

(** The position of the row [Query.filter(p).first()] returns. *)
Fixpoint first_index (p : User -> bool) (db : table) : option nat :=
  match db with
  | [] => None
  | u :: rest => if p u then Some O else option_map S (first_index p rest)
  end.

(** Writing a changed row back in place. *)
Fixpoint set_row (i : nat) (u : User) (db : table) : table :=
  match db, i with
  | [], _ => []
  | _ :: rest, O => u :: rest
  | x :: rest, S j => x :: set_row j u rest
  end.

(** [db.session.delete(user)] *)
Fixpoint delete_row (i : nat) (db : table) : table :=
  match db, i with
  | [], _ => []
  | _ :: rest, O => rest
  | x :: rest, S j => x :: delete_row j rest
  end.

(** The key SQLite gives a new row: one more than the largest in the table. *)
Definition next_id (db : table) : Z := fold_right (fun u m => Z.max (id u) m) 0 db + 1.

(** ** What a handler answers *)

(** [jsonify(body)], [jsonify({'error': _}), status], or an exception that
    leaves the handler. *)
Inductive reply (A : Type) : Type :=
| Json (body : A)
| Error (status : Z) (error : pystr)
| Raised.
Arguments Json {A} body.
Arguments Error {A} status error.
Arguments Raised {A}.

(** The answer, the table the handler leaves, and the table as it stood at
    each [db.session.commit()], in order. *)
Record outcome (A : Type) : Type := mk_outcome {
  response : reply A;
  table_after : table;
  commits : list table
}.
Arguments mk_outcome {A} response table_after commits.
Arguments response {A} o.
Arguments table_after {A} o.
Arguments commits {A} o.

(** [db.func.lower(User.email) == key] *)
Definition has_email (key : pystr) (u : User) : bool := pystr_eqb (sql_lower (email u)) key.

(** [db.func.lower(User.name) == key] *)
Definition has_name (key : pystr) (u : User) : bool := pystr_eqb (sql_lower (name u)) key.

Section Program.
Context `{PyLib}.

(** ** generate_next_reg_no *)

(** [int(u.reg_no.split('-')[2])]; [None] for the [IndexError] or [ValueError]
    that the bare [except] swallows. *)
Definition parse_suffix (r : pystr) : option Z :=
  match nth_error (split_on 45%N r) 2 with
  | None => None
  | Some s => py_int s
  end.

(** The [for u in users] loop. *)
Fixpoint scan_suffixes (users : list User) (max_suffix : Z) : Z :=
  match users with
  | [] => max_suffix
  | u :: rest =>
      match parse_suffix (reg_no u) with
      | Some suffix => scan_suffixes rest (if suffix >? max_suffix then suffix else max_suffix)
      | None => scan_suffixes rest max_suffix
      end
  end.

Definition reg_prefix (year : Z) (code : pystr) : pystr :=
  str_int year ++ py "-" ++ code ++ py "-".

Definition generate_next_reg_no (now : datetime) (db : table) : pystr :=
  let year := dt_year now in
  let code := py "XYZ" in
  let users := filter (fun u => sql_like_prefix (reg_prefix year code) (reg_no u)) db in
  let max_suffix := scan_suffixes users 0 in
  let next_suffix := max_suffix + 1 in
  reg_prefix year code ++ zfill 4 (str_int next_suffix).

(** ** generate_email *)

Definition normalize_name (name : pystr) : pystr :=
  let normalized := str_lower (strip name) in
  let normalized := unicodedata_normalize_NFD normalized in
  let normalized := encode_ascii_ignore normalized in
  keep_lower_and_space normalized.

Definition base_email (parts : list pystr) : pystr :=
  if (length parts =? 1)%nat
  then nth 0 parts [] ++ py "@company.com"
  else nth 0 parts [] ++ py "." ++ last parts [] ++ py "@company.com".

Definition numbered_email (parts : list pystr) (counter : Z) : pystr :=
  if (length parts =? 1)%nat
  then nth 0 parts [] ++ str_int counter ++ py "@company.com"
  else nth 0 parts [] ++ py "." ++ last parts [] ++ str_int counter ++ py "@company.com".

(** The [while] loop; [fuel] bounds the number of candidates tried and
    [None] says the bound was reached. *)
Fixpoint email_loop (fuel : nat) (parts : list pystr) (existing_emails : list pystr)
    (email_candidate : pystr) (counter : Z) : option pystr :=
  match fuel with
  | O => None
  | S fuel' =>
      if str_in (str_lower email_candidate) existing_emails
      then email_loop fuel' parts existing_emails (numbered_email parts counter) (counter + 1)
      else Some email_candidate
  end.

(** One candidate more than there are stored addresses is enough. *)
Definition generate_email (db : table) (name : pystr) : option pystr :=
  match name with
  | [] => Some []
  | _ =>
      let parts := split_ws (normalize_name name) in
      match parts with
      | [] => Some []
      | _ =>
          let existing_emails := map (fun u => str_lower (email u)) db in
          email_loop (S (length db)) parts existing_emails (base_email parts) 1
      end
  end.
(** ** POST /register *)

(** The four values the handler reads from the JSON body, each a string
    (the empty string when the key is missing).  A value that is not a
    string makes [.strip()] raise before any check: that path is outside the
    model, and nothing below speaks of it. *)
Record register_request := mk_register_request {
  rq_name : pystr;
  rq_dob : pystr;
  rq_gender : pystr;
  rq_face_image : pystr
}.

Record register_body := mk_register_body {
  rb_reg_no : pystr;
  rb_email : pystr;
  rb_name : pystr
}.

Definition quoted (s : pystr) : pystr := [34%N] ++ s ++ [34%N].

Definition is_empty (s : pystr) : bool := match s with [] => true | _ => false end.

(** [register] is partial only where the loop of [generate_email] is. *)
Definition register (now : datetime) (data : register_request) (db : table)
  : option (outcome register_body) :=
  let name' := strip (rq_name data) in
  let dob_str := strip (rq_dob data) in
  let gender' := strip (rq_gender data) in
  let face_image' := strip (rq_face_image data) in
  if is_empty name' || is_empty dob_str || is_empty gender' || is_empty face_image'
  then Some (mk_outcome (Error 400 (py "Missing required fields")) db [])
  else if existsb (has_name (str_lower name')) db
  then Some (mk_outcome
               (Error 400 (py "User with name " ++ quoted name' ++ py " already registered."))
               db [])
  else
    match strptime_ymd dob_str with
    | None => Some (mk_outcome (Error 400 (py "Invalid date of birth format.")) db [])
    | Some dob' =>
        match generate_email db name' with
        | None => None
        | Some email' =>
            if existsb (has_email (str_lower email')) db
            then Some (mk_outcome
                         (Error 400 (py "Email " ++ quoted email' ++ py " already registered."))
                         db [])
            else
              let reg_no' := generate_next_reg_no now db in
              let user :=
                {| id := next_id db; reg_no := reg_no'; name := name'; dob := dob';
                   gender := gender'; email := email'; attendance_count := 0;
                   leaves_taken := 0; last_leave_month := None; messages := Some [];
                   face_image := Some face_image' |} in
              (* the UNIQUE constraints on reg_no and email, checked by the commit *)
              if existsb (fun u => pystr_eqb (reg_no u) reg_no' || pystr_eqb (email u) email') db
              then Some (mk_outcome Raised db [])
              else
                let db' := db ++ [user] in
                Some (mk_outcome
                        (Json {| rb_reg_no := reg_no'; rb_email := email'; rb_name := name' |})
                        db' [db'])
        end
    end.

(** ** POST /recognize *)

Inductive recognize_body :=
| Recognized (r_reg_no r_name : pystr) (r_attendance_count : Z) (r_message : pystr)
| NotRecognized (r_message : pystr).

(** [rnd] is what [random.random()] draws and [pick] the draw behind
    [random.choice(users)], which selects row [pick mod len(users)]. *)
Definition recognize (rnd : float) (pick : nat) (db : table) : outcome recognize_body :=
  match db with
  | [] => mk_outcome (Json (NotRecognized (py "No users registered yet."))) db []
  | _ :: _ =>
      if (rnd <? 0.5)%float
      then
        let i := (pick mod length db)%nat in
        match nth_error db i with
        | None => mk_outcome Raised db []
        | Some user =>
            let user' := set_attendance_count (attendance_count user + 1) user in
            let db' := set_row i user' db in
            mk_outcome
              (Json (Recognized (reg_no user') (name user') (attendance_count user')
                       (py "Recognized " ++ name user' ++ py " (" ++ reg_no user'
                        ++ py "). Attendance incremented.")))
              db' [db']
        end
      else mk_outcome (Json (NotRecognized (py "Face not recognized. Please register."))) db []
  end.

(** ** GET /admin/users, GET|DELETE /admin/user/<reg_no>, GET /export *)

Record user_view := mk_user_view {
  v_reg_no : pystr;
  v_name : pystr;
  v_age : Z;
  v_gender : pystr;
  v_email : pystr;
  v_attendance_count : Z
}.

Definition view (today : datetime) (u : User) : user_view :=
  {| v_reg_no := reg_no u; v_name := name u; v_age := age today u; v_gender := gender u;
     v_email := email u; v_attendance_count := attendance_count u |}.

Definition admin_users (today : datetime) (db : table) : outcome (list user_view) :=
  mk_outcome (Json (map (view today) db)) db [].

Inductive http_method := GET | DELETE.

Inductive admin_user_body :=
| Found (v : user_view)
| Deleted (message : pystr).

Definition admin_user (method : http_method) (today : datetime) (reg_no' : pystr) (db : table)
  : outcome admin_user_body :=
  match first_index (fun u => pystr_eqb (reg_no u) reg_no') db with
  | None => mk_outcome (Error 404 (py "User not found")) db []
  | Some i =>
      match nth_error db i with
      | None => mk_outcome Raised db []
      | Some user =>
          match method with
          | GET => mk_outcome (Json (Found (view today user))) db []
          | DELETE =>
              let db' := delete_row i db in
              mk_outcome (Json (Deleted (py "User " ++ reg_no' ++ py " deleted."))) db' [db']
          end
      end
  end.

(** The rows handed to the spreadsheet writer: the six columns of [view], the
    date of birth, the leave counter and [u.messages or '']. *)
Definition export_excel (today : datetime) (db : table)
  : outcome (list (user_view * date * Z * pystr)) :=
  match db with
  | [] => mk_outcome (Error 400 (py "No user data to export.")) db []
  | _ =>
      mk_outcome
        (Json (map (fun u => (view today u, dob u, leaves_taken u,
                              match messages u with Some m => m | None => [] end)) db))
        db []
  end.

(** ** POST /status *)

Record status_body := mk_status_body {
  s_name : pystr;
  s_attendance_count : Z;
  s_leaves_taken : Z;
  s_attendance_percent : float;
  s_messages : list pystr
}.

Definition option_pystr_eqb (a : option pystr) (b : pystr) : bool :=
  match a with
  | Some a' => pystr_eqb a' b
  | None => false
  end.

(** Lines 241 to 243. *)
Definition attendance_percent_of (working_days leaves_taken' : Z) : float :=
  let attendance_percent := 100%float in
  if working_days >? 0
  then py_max0 (py_truediv (working_days - leaves_taken') working_days * 100)%float
  else attendance_percent.

(** Lines 245 to 253: each [if] appends to the list built so far. *)
Definition advisory_messages (leaves_taken' : Z) (attendance_percent : float) : list pystr :=
  let messages' := [] in
  let messages' :=
    if leaves_taken' >? 2
    then messages' ++ [py "Alert: You have taken more than 2 leaves ("
                       ++ str_int leaves_taken' ++ py ") this month."]
    else messages' in
  let messages' :=
    if (attendance_percent <? 90)%float
    then messages' ++ [py "Warning: Your attendance is below 90% ("
                       ++ format_1f attendance_percent ++ py "%)."]
    else messages' in
  let messages' :=
    if (attendance_percent =? 100)%float
    then messages' ++ [py "Great job! You have 100% attendance this month."]
    else messages' in
  match messages' with
  | [] => messages' ++ [py "Your attendance and leave status are within acceptable limits."]
  | _ => messages'
  end.

Definition check_status (now : datetime) (data_email : pystr) (db : table)
  : outcome status_body :=
  let email' := str_lower (strip data_email) in
  if is_empty email'
  then mk_outcome (Error 400 (py "Please enter an email address.")) db []
  else
    match first_index (has_email email') db with
    | None => mk_outcome (Error 404 (py "No user found with this email.")) db []
    | Some i =>
        match nth_error db i with
        | None => mk_outcome Raised db []
        | Some user =>
            let year := dt_year now in
            let month := dt_month now in
            match get_working_days_in_month year month with
            | None => mk_outcome Raised db []
            | Some working_days =>
                let current_month_str := str_int year ++ py "-" ++ str_int month in
                let '(user, db, log) :=
                  if negb (option_pystr_eqb (last_leave_month user) current_month_str)
                  then
                    let user := set_leaves_taken 0 user in
                    let user := set_last_leave_month (Some current_month_str) user in
                    let db := set_row i user db in
                    (user, db, [db])
                  else (user, db, []) in
                let attendance_count' := attendance_count user in
                let leaves_taken' := leaves_taken user in
                let attendance_percent := attendance_percent_of working_days leaves_taken' in
                let messages' := advisory_messages leaves_taken' attendance_percent in
                let user := set_messages (Some (join (py " | ") messages')) user in
                let db := set_row i user db in
                mk_outcome
                  (Json {| s_name := name user; s_attendance_count := attendance_count';
                           s_leaves_taken := leaves_taken';
                           s_attendance_percent := py_round1 attendance_percent;
                           s_messages := messages' |})
                  db (log ++ [db])
            end
        end
    end.

(** ** The application: one request at a time *)

Inductive request :=
| POST_register (now : datetime) (data : register_request)
| POST_recognize (rnd : float) (pick : nat)
| GET_admin_users (today : datetime)
| ANY_admin_user (method : http_method) (today : datetime) (reg_no' : pystr)
| GET_export (today : datetime)
| POST_status (now : datetime) (data_email : pystr).

(** The table a request leaves behind. *)
Definition handle (r : request) (db : table) : option table :=
  match r with
  | POST_register now data => option_map table_after (register now data db)
  | POST_recognize rnd pick => Some (table_after (recognize rnd pick db))
  | GET_admin_users today => Some (table_after (admin_users today db))
  | ANY_admin_user method today reg_no' => Some (table_after (admin_user method today reg_no' db))
  | GET_export today => Some (table_after (export_excel today db))
  | POST_status now data_email => Some (table_after (check_status now data_email db))
  end.

(** The tables the application can hold, starting from [db.create_all()] on
    a new database. *)
Inductive reachable : table -> Prop :=
| reachable_empty : reachable []
| reachable_handle r db db' : reachable db -> handle r db = Some db' -> reachable db'.

End Program.

(** ** What the statements below compare the program with *)

(** Monday is 0 and Friday is 4. *)
Definition Monday_to_Friday : list Z := [0; 1; 2; 3; 4].

(** The dates of a month of the proleptic Gregorian calendar. *)
Definition month_dates (year month : Z) : list date :=
  map (mk_date year month) (py_range 1 (days_in_month year month + 1)).

Definition weekdays_in_month (year month : Z) : Z :=
  Z.of_nat (length (filter (fun d => existsb (Z.eqb (weekday d)) Monday_to_Friday)
                      (month_dates year month))).

(** The day after a date. *)
Definition next_day (d : date) : date :=
  if d_day d <? days_in_month (d_year d) (d_month d)
  then mk_date (d_year d) (d_month d) (d_day d + 1)
  else if d_month d <? 12
       then mk_date (d_year d) (d_month d + 1) 1
       else mk_date (d_year d + 1) 1 1.

Definition valid_date (d : date) : Prop :=
  1 <= d_year d /\ 1 <= d_month d <= 12
  /\ 1 <= d_day d <= days_in_month (d_year d) (d_month d).

(** What [datetime.now()] can return. *)
Definition valid_now (now : datetime) : Prop :=
  1 <= dt_year now <= 9999 /\ 1 <= dt_month now <= 12.

Definition float_max (a b : float) : float := if (a <? b)%float then b else a.

(** The percentage in exact arithmetic, in tenths, rounded half to even:
    [1000 * max(0, working_days - leaves_taken) / working_days]. *)
Definition exact_tenths (working_days leaves_taken' : Z) : Z :=
  let num := 1000 * Z.max 0 (working_days - leaves_taken') in
  let q := num / working_days in
  let r := num mod working_days in
  match 2 * r ?= working_days with
  | Lt => q
  | Gt => q + 1
  | Eq => if Z.even q then q else q + 1
  end.

(** The binary64 nearest to [n / 10]. *)
Definition decimal1 (n : Z) : float := SF2Prim (SFdiv prec emax (Z2SF n) (Z2SF 10)).

Definition alert_message (leaves_taken' : Z) : pystr :=
  py "Alert: You have taken more than 2 leaves (" ++ str_int leaves_taken'
  ++ py ") this month.".

Definition warning_message (attendance_percent : float) : pystr :=
  py "Warning: Your attendance is below 90% (" ++ format_1f attendance_percent ++ py "%).".

Definition great_message : pystr := py "Great job! You have 100% attendance this month.".

Definition within_limits_message : pystr :=
  py "Your attendance and leave status are within acceptable limits.".

(** The messages whose condition holds, in the order of the three tests. *)
Definition applicable_messages (leaves_taken' : Z) (attendance_percent : float) : list pystr :=
  (if leaves_taken' >? 2 then [alert_message leaves_taken'] else [])
  ++ (if (attendance_percent <? 90)%float then [warning_message attendance_percent] else [])
  ++ (if (attendance_percent =? 100)%float then [great_message] else []).

(** The month tag of a moment: [f"{year}-{month}"]. *)
Definition month_tag (now : datetime) : pystr :=
  str_int (dt_year now) ++ py "-" ++ str_int (dt_month now).

Definition max_or_zero (l : list Z) : Z := fold_right Z.max 0 l.

(** Who is in the table and how often each was recognized. *)
Definition counters (db : table) : list (Z * Z) :=
  map (fun u => (id u, attendance_count u)) db.

(** The same person with the same attendance counter; the leave counter is
    what it was or 0. *)
Definition same_counter (u u' : User) : Prop :=
  id u' = id u /\ reg_no u' = reg_no u /\ attendance_count u' = attendance_count u
  /\ (leaves_taken u' = leaves_taken u \/ leaves_taken u' = 0).

Definition is_lower_letter (c : N) : bool := ((97 <=? c) && (c <=? 122))%N.

(** ASCII and not a capital: what lowering leaves alone. *)
Definition is_plain (c : N) : bool := ((c <? 128) && negb ((65 <=? c) && (c <=? 90)))%N.

(** What stands before the at sign: [first.last], or the one token. *)
Definition local_part (parts : list pystr) : pystr :=
  if (length parts =? 1)%nat then nth 0 parts []
  else nth 0 parts [] ++ py "." ++ last parts [].

(** What round [k] puts after the local part: nothing, then 1, 2, ... *)
Definition counter_suffix (k : nat) : pystr :=
  match k with
  | O => []
  | S _ => str_int (Z.of_nat k)
  end.

Section Reference.
Context `{PyLib}.

(** The suffixes that parse, among the rows of one year and code. *)
Definition parsed_suffixes (users : list User) : list Z :=
  flat_map (fun u => match parse_suffix (reg_no u) with Some n => [n] | None => [] end) users.

Definition same_year_rows (year : Z) (db : table) : list User :=
  filter (fun u => sql_like_prefix (reg_prefix year (py "XYZ")) (reg_no u)) db.

(** The address tried at round [k]: the plain one, then suffix 1, 2, ... *)
Definition email_candidate (parts : list pystr) (k : nat) : pystr :=
  match k with
  | O => base_email parts
  | S _ => numbered_email parts (Z.of_nat k)
  end.

(** A candidate collides when its lowering is the lowering of a stored address. *)
Definition collides (db : table) (e : pystr) : bool :=
  str_in (str_lower e) (map (fun u => str_lower (email u)) db).

End Reference.

(** ** Rows and moments for the examples *)

Definition mid_february_2024 : datetime := mk_datetime 2024 2 15.

Definition mid_march_2024 : datetime := mk_datetime 2024 3 15.

(** A row with three leaves recorded for February 2024. *)
Definition ada_row : User :=
  {| id := 1; reg_no := py "2024-XYZ-0001"; name := py "Ada Lovelace";
     dob := mk_date 1815 12 10; gender := py "F"; email := py "ada.lovelace@company.com";
     attendance_count := 4; leaves_taken := 3; last_leave_month := Some (py "2024-2");
     messages := Some []; face_image := Some (py "image") |}.

(** A registration request with a date of birth, a gender and an image. *)
Definition request_for (name' : pystr) : register_request :=
  {| rq_name := name'; rq_dob := py "1990-05-17"; rq_gender := py "F";
     rq_face_image := py "image" |}.

(** The row a first registration of 2024 writes for a name and an address. *)
Definition first_row_2024 (name' email' : pystr) : User :=
  {| id := 1; reg_no := py "2024-XYZ-0001"; name := name'; dob := mk_date 1990 5 17;
     gender := py "F"; email := email'; attendance_count := 0; leaves_taken := 0;
     last_leave_month := None; messages := Some []; face_image := Some (py "image") |}.

(** ** A library for ASCII text

    The smallest functions that satisfy [PyLibLaws]: on ASCII text they agree
    with the interpreter's, and the examples below are ASCII. *)
Definition ascii_digits_int (s : pystr) : option Z :=
  if negb (is_empty s) && forallb is_ascii_digit s then Some (digits_value s) else None.

Definition iso_date (s : pystr) : option date :=
  match split_on 45%N s with
  | [y; m; d] =>
      if (length y =? 4)%nat && (1 <=? length m)%nat && (length m <=? 2)%nat
         && (1 <=? length d)%nat && (length d <=? 2)%nat
         && forallb is_ascii_digit (y ++ m ++ d)
      then date_of (digits_value y) (digits_value m) (digits_value d)
      else None
  | _ => None
  end.

Definition ascii_lib : PyLib :=
  {| str_lower := map ascii_lower;
     unicodedata_normalize_NFD := fun s => s;
     py_int := ascii_digits_int;
     strptime_ymd := iso_date |}.

(** ** What the further statements compare the program with *)

(** The working days of a month of [days] days whose day [d] falls on
    weekday [(w + d) mod 7]. *)
Definition working_days_from (w days : Z) : Z :=
  Z.of_nat (length (filter (fun d => existsb (Z.eqb ((w + d) mod 7)) Monday_to_Friday)
                      (py_range 1 (days + 1)))).

(** Year, month and day compared in that order. *)
Definition ymd_le (y1 m1 d1 y2 m2 d2 : Z) : Prop :=
  y1 < y2 \/ (y1 = y2 /\ (m1 < m2 \/ (m1 = m2 /\ d1 <= d2))).

(** The day on which someone born on [d] completes [n] years has come. *)
Definition birthday_reached (n : Z) (d : date) (today : datetime) : Prop :=
  ymd_le (d_year d + n) (d_month d) (d_day d) (dt_year today) (dt_month today) (dt_day today).

(** All recognitions on record. *)
Definition total_attendance (db : table) : Z :=
  fold_right (fun u total => attendance_count u + total) 0 db.

(** The columns no status check writes. *)
Definition same_person (u u' : User) : Prop :=
  id u' = id u /\ reg_no u' = reg_no u /\ name u' = name u /\ dob u' = dob u
  /\ gender u' = gender u /\ email u' = email u
  /\ attendance_count u' = attendance_count u /\ face_image u' = face_image u.

(** The characters of a generated address. *)
Definition is_address_char (c : N) : bool :=
  (is_lower_letter c || is_ascii_digit c || (c =? 46) || (c =? 64))%N.

(** The text before the first hyphen. *)
Fixpoint before_hyphen (s : pystr) : pystr :=
  match s with
  | [] => []
  | c :: t => if (c =? 45)%N then [] else c :: before_hyphen t
  end.

(** The text after the first hyphen, when there is one. *)
Fixpoint after_hyphen (s : pystr) : option pystr :=
  match s with
  | [] => None
  | c :: t => if (c =? 45)%N then Some t else after_hyphen t
  end.

(** The third of the fields that hyphens separate: what stands between the
    second hyphen and the third, or the end. *)
Definition third_field (r : pystr) : option pystr :=
  match after_hyphen r with
  | None => None
  | Some a =>
      match after_hyphen a with
      | None => None
      | Some b => Some (before_hyphen b)
      end
  end.

Section Suffixes.
Context `{PyLib}.

(** The numeric suffix of a stored number: its third field read as an
    integer; none when the field is missing or is no numeral. *)
Definition numeric_suffix (r : pystr) : option Z :=
  match third_field r with
  | None => None
  | Some s => py_int s
  end.

Definition numeric_suffixes (users : list User) : list Z :=
  flat_map (fun u => match numeric_suffix (reg_no u) with Some n => [n] | None => [] end)
    users.

(** The rows whose number begins with the year and the code XYZ, compared
    as [LIKE] compares. *)
Definition matching_rows (year : Z) (db : table) : list User :=
  filter (fun u => sql_like_prefix (str_int year ++ py "-XYZ-") (reg_no u)) db.


End Suffixes.



(** Rows of two years, one with a suffix that is no numeral. *)
Definition row_numbered (n : Z) (reg_no' : pystr) : User :=
  {| id := n; reg_no := reg_no'; name := py "N"; dob := mk_date 1990 5 17; gender := py "F";
     email := str_int n ++ py "@company.com"; attendance_count := 0; leaves_taken := 0;
     last_leave_month := None; messages := Some []; face_image := Some (py "image") |}.

(** 1 when the request is a recognition that is answered as recognized. *)
Definition recognized (r : request) (db : table) : Z :=
  match r with
  | POST_recognize rnd pick =>
      match response (recognize rnd pick db) with
      | Json (Recognized _ _ _ _) => 1
      | _ => 0
      end
  | _ => 0
  end.

Definition is_deletion (r : request) : bool :=
  match r with
  | ANY_admin_user DELETE _ _ => true
  | _ => false
  end.

Section Runs.
Context `{PyLib}.

(** Requests handled one after the other: the table they leave and how many
    of them were answered as recognized. *)
Fixpoint run (rs : list request) (db : table) : option (table * Z) :=
  match rs with
  | [] => Some (db, 0)
  | r :: rest =>
      match handle r db with
      | None => None
      | Some db' =>
          match run rest db' with
          | None => None
          | Some (final, n) => Some (final, recognized r db + n)
          end
      end
  end.
End Runs.

(** A second row, for Grace Hopper, registered after [ada_row]. *)
Definition grace_row : User :=
  {| id := 2; reg_no := py "2024-XYZ-0002"; name := py "Grace Hopper";
     dob := mk_date 1906 12 9; gender := py "F"; email := py "grace.hopper@company.com";
     attendance_count := 7; leaves_taken := 0; last_leave_month := Some (py "2024-2");
     messages := Some []; face_image := Some (py "image") |}.

(** * Properties *)

(** ** Text *)

Lemma pystr_eqb_eq (a b : pystr) : pystr_eqb a b = true <-> a = b.
Proof.
  unfold pystr_eqb. destruct (list_eq_dec N.eq_dec a b); split; congruence.
Qed.

Lemma pystr_eqb_refl (a : pystr) : pystr_eqb a a = true.
Proof. now apply pystr_eqb_eq. Qed.

Lemma pystr_eqb_neq (a b : pystr) : pystr_eqb a b = false <-> a <> b.
Proof.
  unfold pystr_eqb. destruct (list_eq_dec N.eq_dec a b); split; congruence.
Qed.

Lemma str_in_In (x : pystr) (xs : list pystr) : str_in x xs = true <-> In x xs.
Proof.
  unfold str_in. rewrite existsb_exists. split.
  - intros (y & Hy & E). apply pystr_eqb_eq in E. now subst.
  - intros Hx. exists x. split; [assumption | apply pystr_eqb_refl].
Qed.

(** ** The calendar *)

Lemma month_cases (month : Z) :
  1 <= month <= 12 ->
  In month [1; 2; 3; 4; 5; 6; 7; 8; 9; 10; 11; 12].
Proof. intros Hm. simpl. lia. Qed.

Lemma days_in_month_range (year month : Z) :
  1 <= month <= 12 -> 28 <= days_in_month year month <= 31.
Proof.
  intros Hm. apply month_cases in Hm. unfold days_in_month.
  simpl in Hm. repeat destruct Hm as [<- | Hm]; try contradiction;
    destruct (isleap year); unfold mdays; simpl; lia.
Qed.

Lemma monthrange_days_eq (year month : Z) :
  1 <= month <= 12 -> monthrange_days year month = Some (days_in_month year month).
Proof.
  intros Hm. unfold monthrange_days, days_in_month.
  replace (1 <=? month) with true by (symmetry; apply Z.leb_le; lia).
  replace (month <=? 12) with true by (symmetry; apply Z.leb_le; lia).
  simpl. f_equal.
  destruct (month =? 2) eqn:E2; simpl; [ | lia].
  apply Z.eqb_eq in E2. subst month. destruct (isleap year); reflexivity.
Qed.

Lemma date_of_valid (year month day : Z) :
  1 <= year <= 9999 -> 1 <= month <= 12 -> 1 <= day <= days_in_month year month ->
  date_of year month day = Some (mk_date year month day).
Proof.
  intros Hy Hm Hd. unfold date_of.
  repeat match goal with
         | |- context [?a <=? ?b] =>
             replace (a <=? b) with true by (symmetry; apply Z.leb_le; lia)
         end.
  reflexivity.
Qed.

Lemma weekday_range (d : date) : 0 <= weekday d < 7.
Proof. unfold weekday. apply Z.mod_pos_bound. lia. Qed.

Lemma working_day_test (d : date) :
  (weekday d <? 5) = existsb (Z.eqb (weekday d)) Monday_to_Friday.
Proof.
  pose proof (weekday_range d) as Hw. unfold Monday_to_Friday. simpl.
  destruct (weekday d <? 5) eqn:E.
  - apply Z.ltb_lt in E.
    assert (C : weekday d = 0 \/ weekday d = 1 \/ weekday d = 2 \/ weekday d = 3
                \/ weekday d = 4) by lia.
    destruct C as [C | [C | [C | [C | C]]]]; rewrite C; reflexivity.
  - apply Z.ltb_ge in E.
    repeat match goal with
           | |- context [weekday d =? ?k] =>
               replace (weekday d =? k) with false by (symmetry; apply Z.eqb_neq; lia)
           end.
    reflexivity.
Qed.

Lemma py_range_In (a b x : Z) : In x (py_range a b) <-> a <= x < b.
Proof.
  unfold py_range. rewrite in_map_iff. split.
  - intros (i & E & Hi). apply in_seq in Hi. lia.
  - intros Hx. exists (Z.to_nat (x - a)). split; [lia | apply in_seq; lia].
Qed.

Lemma py_range_length (a b : Z) : length (py_range a b) = Z.to_nat (b - a).
Proof. unfold py_range. now rewrite length_map, length_seq. Qed.

(** The loop counts the days that pass the test, whatever it starts from. *)
Lemma count_weekdays_filter (year month : Z) (days : list Z) :
  1 <= year <= 9999 -> 1 <= month <= 12 ->
  (forall day, In day days -> 1 <= day <= days_in_month year month) ->
  forall count,
    count_weekdays year month days count
    = Some (count
            + Z.of_nat (length (filter (fun d => existsb (Z.eqb (weekday d)) Monday_to_Friday)
                                  (map (mk_date year month) days)))).
Proof.
  intros Hy Hm.
  set (P := fun d => existsb (Z.eqb (weekday d)) Monday_to_Friday).
  induction days as [ | day rest IH]; intros Hdays count;
    cbn [count_weekdays map filter].
  - f_equal. simpl. lia.
  - rewrite date_of_valid by (try assumption; apply Hdays; now left).
    rewrite IH by (intros; apply Hdays; now right).
    rewrite working_day_test. fold (P (mk_date year month day)).
    destruct (P (mk_date year month day)); cbn [length]; f_equal; lia.
Qed.

(** The loop adds at most one per day. *)
Lemma count_weekdays_bounds (year month : Z) (days : list Z) :
  forall count r,
    count_weekdays year month days count = Some r ->
    count <= r <= count + Z.of_nat (length days).
Proof.
  induction days as [ | day rest IH]; intros count r; simpl.
  - intros [= <-]. lia.
  - destruct (date_of year month day); [ | discriminate].
    intros Hr. apply IH in Hr. destruct (weekday d <? 5); lia.
Qed.

Lemma get_working_days_in_month_bounds (year month working_days : Z) :
  get_working_days_in_month year month = Some working_days -> 0 <= working_days <= 31.
Proof.
  unfold get_working_days_in_month.
  destruct (monthrange_days year month) as [dim | ] eqn:Em; [ | discriminate].
  intros Hc. apply count_weekdays_bounds in Hc. rewrite py_range_length in Hc.
  unfold monthrange_days in Em.
  destruct ((1 <=? month) && (month <=? 12)) eqn:Hm; [ | discriminate].
  apply andb_prop in Hm. destruct Hm as [H1 H2]. apply Z.leb_le in H1, H2.
  pose proof (monthrange_days_eq year month (conj H1 H2)) as Em'.
  unfold monthrange_days in Em'.
  replace (1 <=? month) with true in Em' by (symmetry; apply Z.leb_le; lia).
  replace (month <=? 12) with true in Em' by (symmetry; apply Z.leb_le; lia).
  simpl in Em'. rewrite Em' in Em. injection Em as <-.
  pose proof (days_in_month_range year month (conj H1 H2)). lia.
Qed.

(** The ordinal of a date is a count of days: it grows by one from each date
    to the next, across the ends of months and years. *)
Lemma days_before_year_succ (year : Z) :
  days_before_year (year + 1)
  = days_before_year year + 365 + (if isleap year then 1 else 0).
Proof.
  unfold days_before_year, isleap. replace (year + 1 - 1) with year by lia.
  destruct (Z.eqb_spec (year mod 4) 0), (Z.eqb_spec (year mod 100) 0),
    (Z.eqb_spec (year mod 400) 0); simpl; Z.div_mod_to_equations; lia.
Qed.

Lemma days_before_month_succ (year month : Z) :
  1 <= month <= 11 ->
  days_before_month year (month + 1)
  = days_before_month year month + days_in_month year month.
Proof.
  intros Hm. assert (Hm' : 1 <= month <= 12) by lia. apply month_cases in Hm'.
  simpl in Hm'. unfold days_before_month, days_in_month, mdays.
  repeat destruct Hm' as [<- | Hm']; try contradiction; try lia;
    destruct (isleap year); simpl; lia.
Qed.

Lemma toordinal_next_day (d : date) :
  valid_date d -> toordinal (next_day d) = toordinal d + 1.
Proof.
  destruct d as [y m dd]. unfold valid_date, next_day, toordinal. simpl.
  intros (Hy & Hm & Hd).
  destruct (Z.ltb_spec dd (days_in_month y m)); simpl; [lia | ].
  destruct (Z.ltb_spec m 12); simpl.
  - rewrite days_before_month_succ by lia. lia.
  - assert (m = 12) by lia. subst m. rewrite days_before_year_succ.
    unfold days_before_month, days_in_month, mdays in *.
    destruct (isleap y); simpl in *; lia.
Qed.

Lemma weekday_next_day (d : date) :
  valid_date d -> weekday (next_day d) = (weekday d + 1) mod 7.
Proof.
  intros Hd. unfold weekday. rewrite toordinal_next_day by assumption.
  rewrite Zplus_mod_idemp_l. f_equal. lia.
Qed.

(** 1 February 2024 was a Thursday. *)
Lemma weekday_2024_02_01 : weekday (mk_date 2024 2 1) = 3.
Proof. reflexivity. Qed.

Lemma working_days_eq (year month : Z) :
  1 <= year <= 9999 -> 1 <= month <= 12 ->
  get_working_days_in_month year month = Some (weekdays_in_month year month).
Proof.
  intros Hy Hm.
  unfold get_working_days_in_month, weekdays_in_month, month_dates.
  rewrite monthrange_days_eq by assumption.
  rewrite count_weekdays_filter; try assumption.
  - reflexivity.
  - intros day Hday. apply py_range_In in Hday. lia.
Qed.

(** Outside the years and months the interpreter accepts, the function
    raises. *)
Lemma working_days_raises (year month : Z) :
  ~ (1 <= year <= 9999 /\ 1 <= month <= 12) ->
  get_working_days_in_month year month = None.
Proof.
  intros Hbad. unfold get_working_days_in_month.
  destruct (monthrange_days year month) as [dim | ] eqn:Em; [ | reflexivity].
  unfold monthrange_days in Em.
  destruct ((1 <=? month) && (month <=? 12)) eqn:Hm; [ | discriminate].
  apply andb_prop in Hm. destruct Hm as [H1 H2]. apply Z.leb_le in H1, H2.
  pose proof (monthrange_days_eq year month (conj H1 H2)) as Em'.
  unfold monthrange_days in Em'.
  replace (1 <=? month) with true in Em' by (symmetry; apply Z.leb_le; lia).
  replace (month <=? 12) with true in Em' by (symmetry; apply Z.leb_le; lia).
  simpl in Em'. rewrite Em' in Em. injection Em as <-.
  pose proof (days_in_month_range year month (conj H1 H2)) as Hd.
  unfold py_range.
  replace (Z.to_nat (days_in_month year month + 1 - 1))
    with (S (Z.to_nat (days_in_month year month - 1))) by lia.
  cbn [seq map count_weekdays]. unfold date_of.
  destruct ((1 <=? year) && (year <=? 9999)) eqn:Hy; [ | reflexivity].
  apply andb_prop in Hy. destruct Hy as [H3 H4]. apply Z.leb_le in H3, H4. tauto.
Qed.

(** C2: for every year and month the interpreter accepts,
    [get_working_days_in_month] returns the number of dates of that month
    whose weekday is one of Monday to Friday, nothing being known of
    holidays; for February 2024 it returns 21. *)
Theorem get_working_days_in_month_counts_weekdays (year month : Z) :
  1 <= year <= 9999 -> 1 <= month <= 12 ->
  get_working_days_in_month year month = Some (weekdays_in_month year month)
  /\ get_working_days_in_month 2024 2 = Some 21.
Proof.
  intros Hy Hm. split; [now apply working_days_eq | reflexivity].
Qed.

Lemma get_working_days_in_month_counts_weekdays_witness :
  (1 <= 2026 <= 9999 /\ 1 <= 11 <= 12)
  /\ get_working_days_in_month 2026 11 = Some (weekdays_in_month 2026 11)
  /\ get_working_days_in_month 2024 2 = Some 21.
Proof.
  split; [lia | ].
  apply (get_working_days_in_month_counts_weekdays 2026 11); lia.
Defined.

(** ** Rows *)

Lemma first_index_Some (p : User -> bool) (db : table) (i : nat) :
  first_index p db = Some i -> exists u, nth_error db i = Some u /\ p u = true.
Proof.
  revert i. induction db as [ | x rest IH]; intros i; simpl; [discriminate | ].
  destruct (p x) eqn:Px.
  - intros [= <-]. now exists x.
  - destruct (first_index p rest) as [j | ]; simpl; [ | discriminate].
    intros [= <-]. now apply IH.
Qed.

Lemma nth_error_set_row_same (i : nat) (u x : User) (db : table) :
  nth_error db i = Some x -> nth_error (set_row i u db) i = Some u.
Proof.
  revert i. induction db as [ | y rest IH]; intros [ | i]; simpl; try discriminate.
  - reflexivity.
  - apply IH.
Qed.

Lemma nth_error_set_row_other (i j : nat) (u : User) (db : table) :
  i <> j -> nth_error (set_row i u db) j = nth_error db j.
Proof.
  revert i j. induction db as [ | y rest IH]; intros [ | i] [ | j] Hij; simpl;
    try reflexivity; try congruence.
  apply IH. congruence.
Qed.

Lemma length_set_row (i : nat) (u : User) (db : table) :
  length (set_row i u db) = length db.
Proof.
  revert i. induction db as [ | y rest IH]; intros [ | i]; simpl; congruence.
Qed.

Lemma set_row_In (i : nat) (u : User) (db : table) (x : User) :
  In x (set_row i u db) -> x = u \/ In x db.
Proof.
  revert i. induction db as [ | y rest IH]; intros [ | i]; simpl; try tauto.
  - intros [E | Hx]; [now left | right; now right].
  - intros [E | Hx]; [right; now left | ].
    apply IH in Hx. tauto.
Qed.

Section StatusCheck.
Context `{PyLib}.

(** What [check_status] does once the address is found and the month is one
    the calendar accepts: the two assignments of the rollover when the tag
    differs, then the percentage, the messages and the second commit. *)
Lemma check_status_found (now : datetime) (data_email : pystr) (db : table)
    (i : nat) (user : User) :
  valid_now now ->
  str_lower (strip data_email) <> [] ->
  first_index (has_email (str_lower (strip data_email))) db = Some i ->
  nth_error db i = Some user ->
  let working_days := weekdays_in_month (dt_year now) (dt_month now) in
  let rolled := negb (option_pystr_eqb (last_leave_month user) (month_tag now)) in
  let user1 :=
    if rolled then set_last_leave_month (Some (month_tag now)) (set_leaves_taken 0 user)
    else user in
  let db1 := if rolled then set_row i user1 db else db in
  let percent := attendance_percent_of working_days (leaves_taken user1) in
  let msgs := advisory_messages (leaves_taken user1) percent in
  let db2 := set_row i (set_messages (Some (join (py " | ") msgs)) user1) db1 in
  check_status now data_email db
  = mk_outcome
      (Json {| s_name := name user; s_attendance_count := attendance_count user;
               s_leaves_taken := leaves_taken user1;
               s_attendance_percent := py_round1 percent;
               s_messages := msgs |})
      db2 ((if rolled then [db1] else []) ++ [db2]).
Proof.
  intros (Hy & Hm) Hne Hi Hu. unfold check_status.
  destruct (str_lower (strip data_email)) as [ | c key] eqn:Ekey; [congruence | ].
  cbn [is_empty]. rewrite Hi, Hu.
  rewrite (working_days_eq _ _ Hy Hm).
  fold (month_tag now).
  destruct (option_pystr_eqb (last_leave_month user) (month_tag now)); reflexivity.
Qed.
Lemma attendance_percent_of_positive (working_days leaves_taken' : Z) :
  0 < working_days ->
  attendance_percent_of working_days leaves_taken'
  = float_max 0 (py_truediv (working_days - leaves_taken') working_days * 100).
Proof.
  intros Hw. unfold attendance_percent_of, float_max, py_max0.
  replace (working_days >? 0) with true by (symmetry; apply Z.gtb_lt; lia).
  reflexivity.
Qed.

Lemma attendance_percent_of_zero (leaves_taken' : Z) :
  attendance_percent_of 0 leaves_taken' = 100%float.
Proof. reflexivity. Qed.

(** Over the months and leave counts that can occur, the binary
    computation and the rounding agree with exact arithmetic: the answer is
    the binary64 nearest to the percentage rounded to tenths. *)
Lemma rounded_percent_exact (working_days leaves_taken' : Z) :
  1 <= working_days <= 31 -> 0 <= leaves_taken' <= 31 ->
  py_round1 (attendance_percent_of working_days leaves_taken')
  = decimal1 (exact_tenths working_days leaves_taken').
Proof.
  intros Hw Hl.
  assert (Hn : forall n m : nat,
             (n <= 30)%nat -> (m <= 31)%nat ->
             py_round1 (attendance_percent_of (Z.of_nat (S n)) (Z.of_nat m))
             = decimal1 (exact_tenths (Z.of_nat (S n)) (Z.of_nat m))).
  { intros n m Hn Hm.
    do 31 (destruct n as [ | n];
           [do 32 (destruct m as [ | m]; [vm_compute; reflexivity | ]); lia | ]).
    lia. }
  replace working_days with (Z.of_nat (S (Z.to_nat (working_days - 1)))) by lia.
  replace leaves_taken' with (Z.of_nat (Z.to_nat leaves_taken')) by lia.
  apply Hn; lia.
Qed.

(** C1: a status check that finds the user answers with the percentage
    [max(0, (working_days - leaves_taken) / working_days * 100)] when the
    month has working days, and 100 when it has none, rounded to one decimal;
    21 working days and 3 leaves give 85.7. *)
Theorem check_status_attendance_percent (now : datetime) (data_email : pystr)
    (db : table) (i : nat) :
  valid_now now ->
  str_lower (strip data_email) <> [] ->
  first_index (has_email (str_lower (strip data_email))) db = Some i ->
  let working_days := weekdays_in_month (dt_year now) (dt_month now) in
  exists body,
    response (check_status now data_email db) = Json body
    /\ (0 < working_days ->
        s_attendance_percent body
        = py_round1 (float_max 0 (py_truediv (working_days - s_leaves_taken body)
                                    working_days * 100)))
    /\ (working_days = 0 -> s_attendance_percent body = py_round1 100)
    /\ py_round1 (float_max 0 (py_truediv (21 - 3) 21 * 100)) = 85.7%float.
Proof.
  intros Hnow Hne Hi working_days.
  destruct (first_index_Some _ _ _ Hi) as (user & Hu & _).
  rewrite (check_status_found now data_email db i user Hnow Hne Hi Hu).
  fold working_days. cbn [response].
  eexists. split; [reflexivity | ]. cbn [s_attendance_percent s_leaves_taken].
  split; [ | split].
  - intros Hw. now rewrite attendance_percent_of_positive.
  - intros Hw. now rewrite Hw, attendance_percent_of_zero.
  - reflexivity.
Qed.

(** C3: the messages of a status check are those of the three tests that
    hold, in the order leaves over 2, percentage under 90, percentage equal
    to 100, each test made whatever the others gave; when none holds the one
    within-limits message stands alone; the messages joined by a bar are
    written on the user's row and committed. *)
Theorem check_status_messages (now : datetime) (data_email : pystr)
    (db : table) (i : nat) :
  valid_now now ->
  str_lower (strip data_email) <> [] ->
  first_index (has_email (str_lower (strip data_email))) db = Some i ->
  let working_days := weekdays_in_month (dt_year now) (dt_month now) in
  let o := check_status now data_email db in
  exists body user',
    response o = Json body
    /\ s_messages body
       = match applicable_messages (s_leaves_taken body)
                 (attendance_percent_of working_days (s_leaves_taken body)) with
         | [] => [within_limits_message]
         | fired => fired
         end
    /\ nth_error (table_after o) i = Some user'
    /\ messages user' = Some (join (py " | ") (s_messages body))
    /\ last (commits o) [] = table_after o.
Proof.
  intros Hnow Hne Hi working_days o.
  destruct (first_index_Some _ _ _ Hi) as (user & Hu & _).
  unfold o. rewrite (check_status_found now data_email db i user Hnow Hne Hi Hu).
  fold working_days. cbn [response table_after commits].
  destruct (option_pystr_eqb (last_leave_month user) (month_tag now)); cbn [negb];
    (eexists; eexists; split; [reflexivity | ]; cbn [s_messages s_leaves_taken];
     split; [ | split; [ | split]]).
  2, 6: repeat (eapply nth_error_set_row_same); exact Hu.
  2, 3, 5, 6: reflexivity.
  all: unfold advisory_messages, applicable_messages;
    match goal with
    | |- context [attendance_percent_of ?w ?l] =>
        set (pct := attendance_percent_of w l); fold (alert_message l)
    end;
    fold (warning_message pct); fold great_message; fold within_limits_message;
    match goal with |- context [?l >? 2] => destruct (l >? 2) end;
    destruct (pct <? 90)%float; destruct (pct =? 100)%float; reflexivity.
Qed.

(** C4: when the tag stored on the user's row differs from the tag of the
    current month, a status check sets [leaves_taken] to 0 and the tag to the
    current one, commits that at once, in one commit of its own, and computes
    the percentage from the 0; when the tags agree [leaves_taken] is left as
    it was and nothing but the messages is committed. *)
Theorem check_status_rollover (now : datetime) (data_email : pystr)
    (db : table) (i : nat) (user : User) :
  valid_now now ->
  str_lower (strip data_email) <> [] ->
  first_index (has_email (str_lower (strip data_email))) db = Some i ->
  nth_error db i = Some user ->
  let working_days := weekdays_in_month (dt_year now) (dt_month now) in
  let o := check_status now data_email db in
  (last_leave_month user <> Some (month_tag now) ->
   exists body user' db1,
     commits o = [db1; table_after o]
     /\ db1 = set_row i (set_last_leave_month (Some (month_tag now))
                          (set_leaves_taken 0 user)) db
     /\ nth_error (table_after o) i = Some user'
     /\ leaves_taken user' = 0
     /\ last_leave_month user' = Some (month_tag now)
     /\ response o = Json body
     /\ s_leaves_taken body = 0
     /\ s_attendance_percent body = py_round1 (attendance_percent_of working_days 0))
  /\ (last_leave_month user = Some (month_tag now) ->
      exists body user',
        commits o = [table_after o]
        /\ nth_error (table_after o) i = Some user'
        /\ leaves_taken user' = leaves_taken user
        /\ last_leave_month user' = last_leave_month user
        /\ response o = Json body
        /\ s_leaves_taken body = leaves_taken user
        /\ s_attendance_percent body
           = py_round1 (attendance_percent_of working_days (leaves_taken user))).
Proof.
  intros Hnow Hne Hi Hu working_days o.
  unfold o. rewrite (check_status_found now data_email db i user Hnow Hne Hi Hu).
  fold working_days. cbn [response table_after commits].
  split; intros Htag.
  - assert (E : option_pystr_eqb (last_leave_month user) (month_tag now) = false).
    { destruct (last_leave_month user) as [t | ]; [ | reflexivity].
      simpl. apply pystr_eqb_neq. congruence. }
    rewrite E. cbn [negb app].
    eexists. eexists. eexists. split; [reflexivity | ]. split; [reflexivity | ].
    split.
    { repeat (eapply nth_error_set_row_same). exact Hu. }
    repeat split.
  - assert (E : option_pystr_eqb (last_leave_month user) (month_tag now) = true).
    { rewrite Htag. simpl. apply pystr_eqb_refl. }
    rewrite E. cbn [negb app].
    eexists. eexists. split; [reflexivity | ].
    split; [now apply nth_error_set_row_same with (x := user) | ].
    repeat split.
Qed.
End StatusCheck.

(** ** Decimal numerals *)

Lemma digits_value_app (a b : pystr) :
  digits_value (a ++ b)
  = fold_left (fun v c => 10 * v + (Z.of_N c - 48)) b (digits_value a).
Proof. unfold digits_value. now rewrite fold_left_app. Qed.

Lemma digits_value_snoc (a : pystr) (c : N) :
  digits_value (a ++ [c]) = 10 * digits_value a + (Z.of_N c - 48).
Proof. now rewrite digits_value_app. Qed.

Lemma digit_char (n : Z) :
  0 <= n ->
  is_ascii_digit (Z.to_N (48 + n mod 10)) = true
  /\ Z.of_N (Z.to_N (48 + n mod 10)) - 48 = n mod 10.
Proof.
  intros Hn. pose proof (Z.mod_pos_bound n 10 ltac:(lia)) as Hm.
  unfold is_ascii_digit. split.
  - apply andb_true_intro. split; apply N.leb_le; lia.
  - lia.
Qed.

(** The loop of [digits_from] writes a non-empty numeral in front of what
    it was given, and the numeral reads back as the number. *)
Lemma digits_from_spec (fuel : nat) :
  forall n acc,
    0 <= n < 2 ^ Z.of_nat (S fuel) ->
    exists ds,
      digits_from (S fuel) n acc = ds ++ acc
      /\ ds <> []
      /\ forallb is_ascii_digit ds = true
      /\ digits_value ds = n.
Proof.
  induction fuel as [ | fuel IH]; intros n acc Hn.
  - exists [Z.to_N (48 + n mod 10)].
    assert (n < 10) by (change (2 ^ Z.of_nat 1) with 2 in Hn; lia).
    destruct (digit_char n ltac:(lia)) as [Hd Hv].
    cbn [digits_from]. replace (n <? 10) with true by (symmetry; apply Z.ltb_lt; lia).
    repeat split.
    + discriminate.
    + cbn [forallb]. now rewrite Hd.
    + unfold digits_value. cbn [fold_left]. rewrite Hv, Z.mod_small; lia.
  - destruct (digit_char n ltac:(lia)) as [Hd Hv].
    change (digits_from (S (S fuel)) n acc)
      with (if n <? 10 then Z.to_N (48 + n mod 10) :: acc
            else digits_from (S fuel) (n / 10) (Z.to_N (48 + n mod 10) :: acc)).
    destruct (Z.ltb_spec n 10) as [Hlt | Hge].
    + exists [Z.to_N (48 + n mod 10)]. repeat split.
      * discriminate.
      * cbn [forallb]. now rewrite Hd.
      * unfold digits_value. cbn [fold_left]. rewrite Hv, Z.mod_small; lia.
    + assert (Hq : 0 <= n / 10 < 2 ^ Z.of_nat (S fuel)).
      { split; [apply Z.div_pos; lia | ].
        apply Z.div_lt_upper_bound; [lia | ].
        replace (Z.of_nat (S (S fuel))) with (Z.succ (Z.of_nat (S fuel))) in Hn by lia.
        rewrite Z.pow_succ_r in Hn by lia. lia. }
      destruct (IH (n / 10) (Z.to_N (48 + n mod 10) :: acc) Hq)
        as (ds & E & Hne & Hall & Hval).
      exists (ds ++ [Z.to_N (48 + n mod 10)]). repeat split.
      * rewrite E, <- app_assoc. reflexivity.
      * intros C. now apply app_eq_nil in C.
      * rewrite forallb_app, Hall. cbn [forallb]. now rewrite Hd.
      * rewrite digits_value_snoc, Hval, Hv.
        pose proof (Z.div_mod n 10 ltac:(lia)). lia.
Qed.

Lemma digits_spec (n : Z) :
  0 <= n ->
  digits n <> [] /\ forallb is_ascii_digit (digits n) = true /\ digits_value (digits n) = n.
Proof.
  intros Hn. unfold digits.
  assert (Hb : 0 <= n < 2 ^ Z.of_nat (S (Z.to_nat (Z.log2 n)))).
  { split; [assumption | ].
    rewrite Nat2Z.inj_succ, Z2Nat.id by apply Z.log2_nonneg.
    destruct (Z.eq_dec n 0) as [-> | Hz]; [reflexivity | ].
    apply Z.log2_spec. lia. }
  destruct (digits_from_spec _ n [] Hb) as (ds & E & Hne & Hall & Hval).
  rewrite E, app_nil_r. auto.
Qed.

Lemma str_int_nonneg (n : Z) : 0 <= n -> str_int n = digits n.
Proof.
  intros Hn. unfold str_int.
  now replace (n <? 0) with false by (symmetry; apply Z.ltb_ge; lia).
Qed.

Lemma digits_value_zeros (k : nat) (s : pystr) :
  digits_value (repeat 48%N k ++ s) = digits_value s.
Proof.
  induction k as [ | k IH]; [reflexivity | ].
  unfold digits_value in *. cbn [repeat app fold_left]. exact IH.
Qed.

Lemma forallb_repeat_zero (k : nat) : forallb is_ascii_digit (repeat 48%N k) = true.
Proof. induction k; [reflexivity | cbn [repeat forallb]; now rewrite IHk]. Qed.

Lemma digit_is_no_sign (c : N) :
  is_ascii_digit c = true -> ((c =? 43) || (c =? 45))%N = false.
Proof.
  unfold is_ascii_digit. intros Hc. apply andb_prop in Hc. destruct Hc as [H1 H2].
  apply N.leb_le in H1. apply orb_false_intro; apply N.eqb_neq; lia.
Qed.

(** Zero-filling a numeral: only zeros are added, in front, up to the width. *)
Lemma zfill_digits (width : nat) (s : pystr) :
  s <> [] -> forallb is_ascii_digit s = true ->
  zfill width s = repeat 48%N (width - length s) ++ s.
Proof.
  intros Hne Hall. destruct s as [ | c t]; [congruence | ].
  unfold zfill. cbn [forallb] in Hall. apply andb_prop in Hall.
  now rewrite (digit_is_no_sign c (proj1 Hall)).
Qed.

Lemma zfill_str_int (width : nat) (n : Z) :
  0 <= n ->
  let s := zfill width (str_int n) in
  s <> [] /\ forallb is_ascii_digit s = true /\ digits_value s = n
  /\ length s = Nat.max width (length (str_int n)).
Proof.
  intros Hn s. unfold s. rewrite str_int_nonneg by assumption.
  destruct (digits_spec n Hn) as (Hne & Hall & Hval).
  rewrite zfill_digits by assumption. repeat split.
  - intros C. apply app_eq_nil in C. tauto.
  - now rewrite forallb_app, forallb_repeat_zero.
  - now rewrite digits_value_zeros.
  - rewrite length_app, repeat_length. lia.
Qed.

(** ** Splitting and matching registration numbers *)

Lemma split_on_app_sep (sep : N) (a b : pystr) :
  ~ In sep a -> split_on sep (a ++ sep :: b) = a :: split_on sep b.
Proof.
  induction a as [ | c a IH]; intros Hsep.
  - cbn [app split_on]. now rewrite N.eqb_refl.
  - cbn [app split_on].
    replace (c =? sep)%N with false
      by (symmetry; apply N.eqb_neq; intros ->; apply Hsep; now left).
    rewrite IH; [reflexivity | ]. intros Hin. apply Hsep. now right.
Qed.

Lemma split_on_no_sep (sep : N) (a : pystr) : ~ In sep a -> split_on sep a = [a].
Proof.
  induction a as [ | c a IH]; intros Hsep; [reflexivity | ].
  cbn [split_on].
  replace (c =? sep)%N with false
    by (symmetry; apply N.eqb_neq; intros ->; apply Hsep; now left).
  rewrite IH; [reflexivity | ]. intros Hin. apply Hsep. now right.
Qed.

Lemma digits_have_no_hyphen (s : pystr) :
  forallb is_ascii_digit s = true -> ~ In 45%N s.
Proof.
  intros Hall Hin. rewrite forallb_forall in Hall. apply Hall in Hin. discriminate.
Qed.

(** A number the program writes splits into year, code and suffix. *)
Lemma split_generated (year : Z) (suffix : pystr) :
  0 <= year -> forallb is_ascii_digit suffix = true ->
  split_on 45%N (reg_prefix year (py "XYZ") ++ suffix)
  = [str_int year; py "XYZ"; suffix].
Proof.
  intros Hy Hs. unfold reg_prefix.
  change (py "-") with [45%N]. rewrite <- !app_assoc. cbn [app].
  rewrite str_int_nonneg by assumption.
  destruct (digits_spec year Hy) as (_ & Hall & _).
  rewrite split_on_app_sep by now apply digits_have_no_hyphen.
  rewrite split_on_app_sep by (vm_compute; intuition discriminate).
  rewrite split_on_no_sep by now apply digits_have_no_hyphen.
  reflexivity.
Qed.

Lemma firstn_length_app (p s : pystr) : firstn (length p) (p ++ s) = p.
Proof. induction p as [ | c p IH]; [reflexivity | cbn; now rewrite IH]. Qed.

Lemma sql_like_prefix_app (p s : pystr) : sql_like_prefix p (p ++ s) = true.
Proof. unfold sql_like_prefix. rewrite firstn_length_app. apply pystr_eqb_refl. Qed.

Lemma max_or_zero_nonneg (l : list Z) : 0 <= max_or_zero l.
Proof.
  unfold max_or_zero. induction l as [ | x l IH]; cbn [fold_right]; lia.
Qed.

Lemma max_or_zero_app (a b : list Z) :
  max_or_zero (a ++ b) = Z.max (max_or_zero a) (max_or_zero b).
Proof.
  induction a as [ | x a IH]; cbn [app max_or_zero fold_right].
  - pose proof (max_or_zero_nonneg b). unfold max_or_zero in *. lia.
  - unfold max_or_zero in *. rewrite IH. lia.
Qed.

Section RegistrationNumbers.
Context `{PyLib}.

(** The loop keeps the largest suffix that parses, rows that do not parse
    leaving the running maximum as it is. *)
Lemma scan_suffixes_max (users : list User) :
  forall max_suffix,
    0 <= max_suffix ->
    scan_suffixes users max_suffix = Z.max max_suffix (max_or_zero (parsed_suffixes users)).
Proof.
  induction users as [ | u rest IH]; intros m Hm; cbn [scan_suffixes parsed_suffixes flat_map].
  - cbn. lia.
  - fold (parsed_suffixes rest).
    destruct (parse_suffix (reg_no u)) as [suffix | ].
    + rewrite IH by (destruct (Z.gtb_spec suffix m); lia).
      rewrite max_or_zero_app. cbn [max_or_zero fold_right].
      destruct (Z.gtb_spec suffix m); lia.
    + cbn [app]. now apply IH.
Qed.

Lemma generate_next_reg_no_eq (now : datetime) (db : table) :
  generate_next_reg_no now db
  = reg_prefix (dt_year now) (py "XYZ")
    ++ zfill 4 (str_int (max_or_zero (parsed_suffixes (same_year_rows (dt_year now) db)) + 1)).
Proof.
  unfold generate_next_reg_no. fold (same_year_rows (dt_year now) db).
  rewrite scan_suffixes_max by lia.
  pose proof (max_or_zero_nonneg (parsed_suffixes (same_year_rows (dt_year now) db))).
  now rewrite Z.max_r by assumption.
Qed.

Lemma parsed_suffixes_app (a b : list User) :
  parsed_suffixes (a ++ b) = parsed_suffixes a ++ parsed_suffixes b.
Proof. unfold parsed_suffixes. apply flat_map_app. Qed.

Lemma same_year_rows_app (year : Z) (a b : table) :
  same_year_rows year (a ++ b) = same_year_rows year a ++ same_year_rows year b.
Proof. unfold same_year_rows. apply filter_app. Qed.

(** The next number in terms of the loop's own reading of the rows. *)
Lemma generate_next_reg_no_parsed (now : datetime) (db : table) :
  let rows := same_year_rows (dt_year now) db in
  let next_suffix := max_or_zero (parsed_suffixes rows) + 1 in
  let suffix := zfill 4 (str_int next_suffix) in
  generate_next_reg_no now db = str_int (dt_year now) ++ py "-XYZ-" ++ suffix
  /\ forallb is_ascii_digit suffix = true
  /\ digits_value suffix = next_suffix
  /\ length suffix = Nat.max 4 (length (str_int next_suffix))
  /\ (forall u before after,
        db = before ++ u :: after -> parse_suffix (reg_no u) = None ->
        generate_next_reg_no now db = generate_next_reg_no now (before ++ after)).
Proof.
  intros rows next_suffix suffix.
  pose proof (max_or_zero_nonneg (parsed_suffixes rows)) as Hpos.
  destruct (zfill_str_int 4 next_suffix ltac:(unfold next_suffix; lia))
    as (_ & Hall & Hval & Hlen).
  split; [ | split; [exact Hall | split; [exact Hval | split; [exact Hlen | ]]]].
  - rewrite generate_next_reg_no_eq. unfold reg_prefix.
    rewrite <- !app_assoc. reflexivity.
  - intros u before after -> Hu. rewrite !generate_next_reg_no_eq.
    do 3 f_equal. f_equal.
    rewrite !same_year_rows_app, !parsed_suffixes_app.
    f_equal. change (u :: after) with ([u] ++ after).
    rewrite same_year_rows_app, parsed_suffixes_app.
    assert (E : parsed_suffixes (same_year_rows (dt_year now) [u]) = []).
    { unfold same_year_rows. cbn [filter].
      destruct (sql_like_prefix (reg_prefix (dt_year now) (py "XYZ")) (reg_no u));
        [ | reflexivity].
      cbn [parsed_suffixes flat_map]. now rewrite Hu. }
    now rewrite E.
Qed.
End RegistrationNumbers.

(** ** Registration *)

Section Registration.
Context `{PyLib}.

(** A registration either leaves the table as it was and answers with an
    error, or appends one row, commits once and answers with that row's
    number, address and name. *)
Lemma register_cases (now : datetime) (data : register_request) (db : table)
    (o : outcome register_body) :
  register now data db = Some o ->
  (table_after o = db /\ commits o = [] /\ forall body, response o <> Json body)
  \/ (exists u,
        table_after o = db ++ [u] /\ commits o = [db ++ [u]]
        /\ response o
           = Json {| rb_reg_no := reg_no u; rb_email := email u; rb_name := name u |}
        /\ reg_no u = generate_next_reg_no now db
        /\ name u = strip (rq_name data)
        /\ generate_email db (name u) = Some (email u)
        /\ id u = next_id db
        /\ attendance_count u = 0
        /\ leaves_taken u = 0
        /\ last_leave_month u = None
        /\ existsb (has_email (str_lower (email u))) db = false).
Proof.
  unfold register.
  destruct (is_empty (strip (rq_name data)) || is_empty (strip (rq_dob data))
            || is_empty (strip (rq_gender data)) || is_empty (strip (rq_face_image data))).
  { intros [= <-]. left. cbn. repeat split. discriminate. }
  destruct (existsb (has_name (str_lower (strip (rq_name data)))) db).
  { intros [= <-]. left. cbn. repeat split. discriminate. }
  destruct (strptime_ymd (strip (rq_dob data))) as [dob' | ].
  2: { intros [= <-]. left. cbn. repeat split. discriminate. }
  destruct (generate_email db (strip (rq_name data))) as [email' | ] eqn:Ee; [ | discriminate].
  destruct (existsb (has_email (str_lower email')) db) eqn:Edup.
  { intros [= <-]. left. cbn. repeat split. discriminate. }
  match goal with |- context [if ?c then _ else _] => destruct c eqn:Euniq end.
  { intros [= <-]. left. cbn. repeat split. discriminate. }
  intros [= <-]. right. eexists. cbn [table_after commits response].
  split; [reflexivity | ]. cbn.
  repeat split; assumption.
Qed.
End Registration.

Section RegistrationLaws.
Context `{PyLib} {laws : PyLibLaws}.

(** A number the program wrote parses back to the suffix it was given. *)
Lemma parse_suffix_generated (year n : Z) :
  0 <= year -> 0 <= n ->
  parse_suffix (reg_prefix year (py "XYZ") ++ zfill 4 (str_int n)) = Some n.
Proof.
  intros Hy Hn. destruct (zfill_str_int 4 n Hn) as (Hne & Hall & Hval & _).
  unfold parse_suffix. rewrite split_generated by assumption.
  cbn [nth_error]. rewrite py_int_digits by assumption. now rewrite Hval.
Qed.

(** Appending the row of a fresh number raises the largest suffix of its
    year to that number's suffix. *)
Lemma largest_suffix_after_append (year : Z) (db : table) (u : User) :
  0 <= year ->
  let largest := max_or_zero (parsed_suffixes (same_year_rows year db)) in
  reg_no u = reg_prefix year (py "XYZ") ++ zfill 4 (str_int (largest + 1)) ->
  max_or_zero (parsed_suffixes (same_year_rows year (db ++ [u]))) = largest + 1.
Proof.
  intros Hy largest Hu.
  pose proof (max_or_zero_nonneg (parsed_suffixes (same_year_rows year db))) as Hpos.
  rewrite same_year_rows_app, parsed_suffixes_app, max_or_zero_app.
  fold largest. fold largest in Hpos.
  assert (E : parsed_suffixes (same_year_rows year [u]) = [largest + 1]).
  { unfold same_year_rows. cbn [filter].
    rewrite Hu, sql_like_prefix_app. cbn [parsed_suffixes flat_map].
    rewrite Hu, parse_suffix_generated by lia. reflexivity. }
  rewrite E. cbn [max_or_zero fold_right]. lia.
Qed.

End RegistrationLaws.

(** ** Names and addresses *)

Lemma split_ws_from_parts (s : pystr) :
  forall cur,
    Forall (fun c => py_isspace c = false) cur ->
    Forall (fun p => p <> []
                     /\ Forall (fun c => py_isspace c = false /\ (In c cur \/ In c s)) p)
      (split_ws_from cur s).
Proof.
  induction s as [ | c t IH]; intros cur Hcur; cbn [split_ws_from].
  - destruct cur as [ | x cur']; constructor; [ | constructor].
    split.
    + intros C. apply (f_equal (@rev N)) in C. rewrite rev_involutive in C. discriminate.
    + apply Forall_rev. rewrite Forall_forall in *. intros y Hy. split; [auto | now left].
  - destruct (py_isspace c) eqn:Ec.
    + assert (Ht : Forall (fun p => p <> []
                     /\ Forall (fun x => py_isspace x = false /\ (In x cur \/ In x (c :: t))) p)
                     (split_ws_from [] t)).
      { eapply Forall_impl; [ | apply (IH [] (Forall_nil _))].
        intros p [Hne Hp]. split; [assumption | ].
        eapply Forall_impl; [ | exact Hp].
        intros x [Hx [[] | Hin]]. split; [assumption | right; now right]. }
      destruct cur as [ | x cur']; [exact Ht | ].
      constructor; [ | exact Ht]. split.
      * intros C. apply (f_equal (@rev N)) in C. rewrite rev_involutive in C. discriminate.
      * apply Forall_rev. rewrite Forall_forall in *. intros y Hy. split; [auto | now left].
    + eapply Forall_impl; [ | apply (IH (c :: cur)); now constructor].
      intros p [Hne Hp]. split; [assumption | ].
      eapply Forall_impl; [ | exact Hp].
      intros x [Hx [[-> | Hin] | Hin]]; (split; [assumption | ]).
      * right. now left.
      * now left.
      * right. now right.
Qed.

(** The tokens of text that holds only small letters and whitespace are
    non-empty words of small letters. *)
Lemma tokens_are_words (s : pystr) :
  Forall (fun p => p <> [] /\ forallb is_lower_letter p = true)
    (split_ws (keep_lower_and_space s)).
Proof.
  unfold split_ws.
  eapply Forall_impl; [ | apply (split_ws_from_parts _ [] (Forall_nil _))].
  intros p [Hne Hp]. split; [assumption | ].
  apply forallb_forall. intros c Hc. rewrite Forall_forall in Hp.
  destruct (Hp c Hc) as [Hsp [[] | Hin]].
  unfold keep_lower_and_space in Hin. apply filter_In in Hin. destruct Hin as [_ Hk].
  rewrite Hsp, orb_false_r in Hk. exact Hk.
Qed.

Lemma lower_letter_is_plain (c : N) : is_lower_letter c = true -> is_plain c = true.
Proof.
  unfold is_lower_letter, is_plain. intros Hc. apply andb_prop in Hc.
  destruct Hc as [H1 H2]. apply N.leb_le in H1, H2.
  apply andb_true_intro. split; [apply N.ltb_lt; lia | ].
  apply negb_true_iff, andb_false_intro2, N.leb_gt. lia.
Qed.

Lemma digit_is_plain (c : N) : is_ascii_digit c = true -> is_plain c = true.
Proof.
  unfold is_ascii_digit, is_plain. intros Hc. apply andb_prop in Hc.
  destruct Hc as [H1 H2]. apply N.leb_le in H1, H2.
  apply andb_true_intro. split; [apply N.ltb_lt; lia | ].
  apply negb_true_iff, andb_false_intro1, N.leb_gt. lia.
Qed.

Lemma forallb_impl (p q : N -> bool) (s : pystr) :
  (forall c, p c = true -> q c = true) -> forallb p s = true -> forallb q s = true.
Proof.
  intros Hpq Hs. rewrite forallb_forall in *. auto.
Qed.

Lemma plain_is_ascii (s : pystr) : forallb is_plain s = true -> is_ascii s = true.
Proof.
  apply forallb_impl. unfold is_plain. intros c Hc. now apply andb_prop in Hc.
Qed.

Lemma map_ascii_lower_plain (s : pystr) : forallb is_plain s = true -> map ascii_lower s = s.
Proof.
  induction s as [ | c s IH]; [reflexivity | ]. cbn [forallb map]. intros Hs.
  apply andb_prop in Hs. destruct Hs as [Hc Hs]. rewrite IH by assumption. f_equal.
  unfold is_plain in Hc. apply andb_prop in Hc. destruct Hc as [_ Hc].
  unfold ascii_lower. apply negb_true_iff in Hc. now rewrite Hc.
Qed.

Lemma base_email_eq (parts : list pystr) :
  base_email parts = local_part parts ++ py "@company.com".
Proof.
  unfold base_email, local_part. destruct (length parts =? 1)%nat; [reflexivity | ].
  now rewrite <- !app_assoc.
Qed.

Lemma numbered_email_eq (parts : list pystr) (counter : Z) :
  numbered_email parts counter = local_part parts ++ str_int counter ++ py "@company.com".
Proof.
  unfold numbered_email, local_part. destruct (length parts =? 1)%nat; [reflexivity | ].
  now rewrite <- !app_assoc.
Qed.

Lemma last_is_member (l : list pystr) (d : pystr) : l <> [] -> In (last l d) l.
Proof.
  induction l as [ | x l IH]; [congruence | ]. intros _.
  destruct l as [ | y l']; [now left | ].
  right. apply IH. discriminate.
Qed.

Lemma local_part_plain (parts : list pystr) :
  Forall (fun p => p <> [] /\ forallb is_lower_letter p = true) parts ->
  forallb is_plain (local_part parts) = true.
Proof.
  intros Hparts.
  assert (Hp : forall p, In p parts -> forallb is_plain p = true).
  { rewrite Forall_forall in Hparts. intros p Hin.
    apply (forallb_impl is_lower_letter); [apply lower_letter_is_plain | ].
    now apply Hparts. }
  assert (Hnth : forallb is_plain (nth 0 parts []) = true).
  { destruct parts as [ | p rest]; [reflexivity | ]. apply Hp. now left. }
  assert (Hlast : forallb is_plain (last parts []) = true).
  { destruct parts as [ | p rest]; [reflexivity | ].
    apply Hp. apply last_is_member. discriminate. }
  unfold local_part. destruct (length parts =? 1)%nat; [assumption | ].
  rewrite !forallb_app, Hnth, Hlast. reflexivity.
Qed.

Section Addresses.
Context `{PyLib}.

(** The loop stops at the first candidate that does not collide, and runs
    out of fuel only when every candidate it was allowed collides. *)
Lemma email_loop_first_free (parts existing : list pystr) (fuel : nat) :
  forall k,
    match email_loop fuel parts existing (email_candidate parts k) (Z.of_nat k + 1) with
    | Some e =>
        exists j, (k <= j < k + fuel)%nat
                  /\ e = email_candidate parts j
                  /\ str_in (str_lower e) existing = false
                  /\ forall i, (k <= i < j)%nat ->
                               str_in (str_lower (email_candidate parts i)) existing = true
    | None =>
        forall i, (k <= i < k + fuel)%nat ->
                  str_in (str_lower (email_candidate parts i)) existing = true
    end.
Proof.
  induction fuel as [ | fuel IH]; intros k; cbn [email_loop].
  - intros i Hi. lia.
  - destruct (str_in (str_lower (email_candidate parts k)) existing) eqn:E.
    + replace (numbered_email parts (Z.of_nat k + 1)) with (email_candidate parts (S k))
        by (cbn [email_candidate]; f_equal; lia).
      replace (Z.of_nat k + 1 + 1) with (Z.of_nat (S k) + 1) by lia.
      specialize (IH (S k)).
      destruct (email_loop fuel parts existing (email_candidate parts (S k))
                  (Z.of_nat (S k) + 1)) as [e | ].
      * destruct IH as (j & Hj & He & Hfree & Hbefore).
        exists j. repeat split; try assumption; try lia.
        intros i Hi. destruct (Nat.eq_dec i k) as [-> | Hne]; [assumption | ].
        apply Hbefore. lia.
      * intros i Hi. destruct (Nat.eq_dec i k) as [-> | Hne]; [assumption | ].
        apply IH. lia.
    + exists k. repeat split; try assumption; lia.
Qed.

Lemma generate_email_eq (db : table) (name' : pystr) :
  name' <> [] -> split_ws (normalize_name name') <> [] ->
  generate_email db name'
  = email_loop (S (length db)) (split_ws (normalize_name name'))
      (map (fun u => str_lower (email u)) db)
      (base_email (split_ws (normalize_name name'))) 1.
Proof.
  intros Hn Hp. unfold generate_email.
  destruct name' as [ | c t]; [congruence | ].
  destruct (split_ws (normalize_name (c :: t))); [congruence | reflexivity].
Qed.

Lemma candidate_injective (parts : list pystr) (j k : nat) :
  email_candidate parts j = email_candidate parts k -> j = k.
Proof.
  assert (Hnum : forall n : nat, str_int (Z.of_nat n) <> []
                                 /\ digits_value (str_int (Z.of_nat n)) = Z.of_nat n).
  { intros n. rewrite str_int_nonneg by lia.
    destruct (digits_spec (Z.of_nat n) ltac:(lia)) as (Hne & _ & Hv). now split. }
  destruct j as [ | j], k as [ | k]; cbn [email_candidate];
    rewrite ?base_email_eq, ?numbered_email_eq; intros E; apply app_inv_head in E.
  - reflexivity.
  - change (py "@company.com") with ([] ++ py "@company.com") in E at 1.
    apply app_inv_tail in E. symmetry in E. now apply Hnum in E.
  - change (py "@company.com") with ([] ++ py "@company.com") in E at 2.
    apply app_inv_tail in E. now apply Hnum in E.
  - apply app_inv_tail in E. apply (f_equal digits_value) in E.
    rewrite !(proj2 (Hnum _)) in E. lia.
Qed.

Lemma candidates_NoDup (parts : list pystr) (l : list nat) :
  NoDup l -> NoDup (map (email_candidate parts) l).
Proof.
  induction 1 as [ | x l Hx Hl IH]; cbn [map]; constructor; [ | assumption].
  intros Hin. apply in_map_iff in Hin. destruct Hin as (y & E & Hy).
  apply candidate_injective in E. now subst.
Qed.

Context {laws : PyLibLaws}.

Lemma str_lower_plain (s : pystr) : forallb is_plain s = true -> str_lower s = s.
Proof.
  intros Hs. rewrite str_lower_ascii by now apply plain_is_ascii.
  now apply map_ascii_lower_plain.
Qed.

Lemma candidate_plain (parts : list pystr) (k : nat) :
  Forall (fun p => p <> [] /\ forallb is_lower_letter p = true) parts ->
  forallb is_plain (email_candidate parts k) = true.
Proof.
  intros Hparts. pose proof (local_part_plain parts Hparts) as Hl.
  destruct k as [ | k]; cbn [email_candidate];
    rewrite ?base_email_eq, ?numbered_email_eq, !forallb_app, Hl; cbn [andb].
  - reflexivity.
  - rewrite str_int_nonneg by lia.
    destruct (digits_spec (Z.of_nat (S k)) ltac:(lia)) as (_ & Hd & _).
    rewrite (forallb_impl _ _ _ digit_is_plain Hd). reflexivity.
Qed.

(** Among one candidate more than there are stored addresses, one is free. *)
Lemma some_candidate_is_free (parts existing : list pystr) :
  Forall (fun p => p <> [] /\ forallb is_lower_letter p = true) parts ->
  ~ (forall i, (0 <= i < 0 + S (length existing))%nat ->
               str_in (str_lower (email_candidate parts i)) existing = true).
Proof.
  intros Hparts Hall.
  pose proof (candidates_NoDup parts _ (seq_NoDup (S (length existing)) 0)) as Hnd.
  assert (Hincl : incl (map (email_candidate parts) (seq 0 (S (length existing)))) existing).
  { intros e He. apply in_map_iff in He. destruct He as (i & <- & Hi).
    apply in_seq in Hi. specialize (Hall i ltac:(lia)).
    rewrite str_lower_plain in Hall by now apply candidate_plain.
    now apply str_in_In. }
  pose proof (NoDup_incl_length Hnd Hincl) as Hlen.
  rewrite length_map, length_seq in Hlen. lia.
Qed.

Lemma empty_name_has_no_token : split_ws (normalize_name []) = [].
Proof.
  unfold normalize_name. change (strip []) with (@nil N).
  rewrite str_lower_ascii by reflexivity. cbn [map].
  rewrite normalize_NFD_ascii by reflexivity. reflexivity.
Qed.

(** The address [generate_email] returns is the first candidate that does
    not collide. *)
Lemma generate_email_first_free (db : table) (name' : pystr) :
  let parts := split_ws (normalize_name name') in
  parts <> [] ->
  exists k,
    generate_email db name' = Some (email_candidate parts k)
    /\ (k <= length db)%nat
    /\ collides db (email_candidate parts k) = false
    /\ forall j, (j < k)%nat -> collides db (email_candidate parts j) = true.
Proof.
  intros parts Hparts.
  assert (Hname : name' <> []).
  { intros ->. apply Hparts. apply empty_name_has_no_token. }
  rewrite generate_email_eq by assumption. fold parts.
  pose proof (email_loop_first_free parts (map (fun u => str_lower (email u)) db)
                (S (length db)) 0) as Hloop.
  change (email_candidate parts 0) with (base_email parts) in Hloop at 1.
  change (Z.of_nat 0 + 1) with 1 in Hloop.
  destruct (email_loop (S (length db)) parts _ (base_email parts) 1) as [e | ].
  - destruct Hloop as (j & Hj & -> & Hfree & Hbefore).
    exists j. repeat split; try assumption; try lia.
    intros i Hi. apply Hbefore. lia.
  - exfalso. apply (some_candidate_is_free parts (map (fun u => str_lower (email u)) db)).
    + apply tokens_are_words.
    + rewrite length_map. exact Hloop.
Qed.
Lemma email_candidate_eq (parts : list pystr) (k : nat) :
  email_candidate parts k = local_part parts ++ counter_suffix k ++ py "@company.com".
Proof.
  destruct k; cbn [email_candidate counter_suffix];
    [apply base_email_eq | apply numbered_email_eq].
Qed.





End Addresses.

(** ** Every request is answered *)

Section Totality.
Context `{PyLib} {laws : PyLibLaws}.

(** The loop of [generate_email] ends within the rounds it is given. *)
Lemma generate_email_returns (db : table) (name' : pystr) :
  exists e, generate_email db name' = Some e.
Proof.
  destruct (split_ws (normalize_name name')) as [ | p rest] eqn:Ep.
  - unfold generate_email. destruct name'; [eauto | ]. rewrite Ep. eauto.
  - destruct (generate_email_first_free db name') as (k & E & _); [ | eauto].
    rewrite Ep. discriminate.
Qed.



End Totality.

(** ** What each handler does to the table *)

Lemma same_counter_refl (u : User) : same_counter u u.
Proof. unfold same_counter. auto. Qed.

Lemma Forall2_same_counter_refl (db : table) : Forall2 same_counter db db.
Proof. induction db; constructor; [apply same_counter_refl | assumption]. Qed.

Lemma Forall2_set_row (i : nat) (x u : User) (db : table) :
  nth_error db i = Some x -> same_counter x u -> Forall2 same_counter db (set_row i u db).
Proof.
  revert i. induction db as [ | y rest IH]; intros [ | i]; cbn [nth_error set_row];
    try discriminate.
  - intros [= ->] Hr. constructor; [assumption | apply Forall2_same_counter_refl].
  - intros Hx Hr. constructor; [apply same_counter_refl | now apply IH].
Qed.

Lemma set_row_set_row (i : nat) (u v : User) (db : table) :
  set_row i v (set_row i u db) = set_row i v db.
Proof.
  revert i. induction db as [ | y rest IH]; intros [ | i]; cbn [set_row];
    try reflexivity.
  now rewrite IH.
Qed.

Lemma same_counter_rows (db db' : table) :
  Forall2 same_counter db db' ->
  counters db' = counters db
  /\ (Forall (fun u => leaves_taken u = 0) db -> Forall (fun u => leaves_taken u = 0) db')
  /\ (forall u', In u' db' -> exists u, In u db /\ same_counter u u').
Proof.
  induction 1 as [ | u u' db db' Hr Hrest (IH1 & IH2 & IH3)].
  - repeat split; auto. intros u' [].
  - destruct Hr as (Hid & Hreg & Hcount & Hleaves) eqn:Er. repeat split.
    + unfold counters in *. cbn [map]. now rewrite IH1, Hid, Hcount.
    + intros Hall. inversion Hall as [ | ? ? Hu Hdb]; subst.
      constructor; [lia | auto].
    + intros v [<- | Hv].
      * exists u. split; [now left | unfold same_counter; auto].
      * destruct (IH3 v Hv) as (w & Hw & Hs). exists w. split; [now right | assumption].
Qed.

Lemma delete_row_In (i : nat) (db : table) (x : User) : In x (delete_row i db) -> In x db.
Proof.
  revert i. induction db as [ | y rest IH]; intros [ | i]; cbn [delete_row]; try tauto.
  - intros Hx. now right.
  - intros [-> | Hx]; [now left | right; eauto].
Qed.

Lemma nth_error_mod_length (pick : nat) (db : table) :
  db <> [] -> exists user, nth_error db (pick mod length db) = Some user.
Proof.
  intros Hne. destruct (nth_error db (pick mod length db)) as [user | ] eqn:E; [eauto | ].
  apply nth_error_None in E.
  assert (length db <> 0)%nat by (destruct db; [congruence | discriminate]).
  pose proof (Nat.mod_upper_bound pick (length db) ltac:(assumption)). lia.
Qed.

Section Handlers.
Context `{PyLib}.

Lemma check_status_table (now : datetime) (data_email : pystr) (db : table) :
  Forall2 same_counter db (table_after (check_status now data_email db)).
Proof.
  unfold check_status.
  destruct (is_empty _); [apply Forall2_same_counter_refl | ].
  destruct (first_index _ db) as [i | ]; [ | apply Forall2_same_counter_refl].
  destruct (nth_error db i) as [user | ] eqn:Eu; [ | apply Forall2_same_counter_refl].
  destruct (get_working_days_in_month _ _); [ | apply Forall2_same_counter_refl].
  destruct (negb _); cbn [table_after]; rewrite ?set_row_set_row;
    (apply Forall2_set_row with (x := user); [assumption | ]);
    unfold same_counter; cbn; auto.
Qed.

Lemma admin_user_table (method : http_method) (today : datetime) (reg_no' : pystr)
    (db : table) :
  table_after (admin_user method today reg_no' db) = db
  \/ exists i, table_after (admin_user method today reg_no' db) = delete_row i db.
Proof.
  unfold admin_user. destruct (first_index _ db) as [i | ]; [ | now left].
  destruct (nth_error db i); [ | now left].
  destruct method; [now left | right; now exists i].
Qed.

(** The two outcomes of a recognition. *)
Lemma recognize_cases (rnd : float) (pick : nat) (db : table) :
  let o := recognize rnd pick db in
  (db <> [] /\ (rnd <? 0.5)%float = true
   /\ exists user,
       nth_error db (pick mod length db) = Some user
       /\ table_after o
          = set_row (pick mod length db)
              (set_attendance_count (attendance_count user + 1) user) db
       /\ commits o = [table_after o]
       /\ exists msg,
           response o
           = Json (Recognized (reg_no user) (name user) (attendance_count user + 1) msg))
  \/ ((db = [] \/ (rnd <? 0.5)%float = false)
      /\ table_after o = db /\ commits o = []
      /\ exists msg, response o = Json (NotRecognized msg)).
Proof.
  intros o. unfold o, recognize. destruct db as [ | x rest] eqn:Edb.
  - right. cbn. repeat split; eauto.
  - rewrite <- Edb. destruct (rnd <? 0.5)%float.
    + left. assert (Hne : db <> []) by (rewrite Edb; discriminate).
      destruct (nth_error_mod_length pick db Hne) as (user & Hu).
      rewrite Hu. cbn [table_after commits response]. repeat split; try assumption.
      exists user. repeat split. eexists. reflexivity.
    + right. cbn. repeat split; eauto.
Qed.
Lemma export_excel_table (today : datetime) (db : table) :
  table_after (export_excel today db) = db.
Proof. unfold export_excel. now destruct db. Qed.

(** C8: a recognition has two outcomes.  Recognized: one row gets its
    [attendance_count] raised by exactly 1, by an assignment that touches no
    other field, and every other row stays as it was.  Not recognized, which
    includes the table without users: nothing is written.  No other request
    changes the counter of a row that stays in the table (a registration adds
    a row at 0, a deletion removes one), so across any request a counter
    never goes down. *)
Theorem recognize_effect (rnd : float) (pick : nat) (db : table) :
  let o := recognize rnd pick db in
  ((exists i user,
       nth_error db i = Some user
       /\ table_after o = set_row i (set_attendance_count (attendance_count user + 1) user) db
       /\ nth_error (table_after o) i
          = Some (set_attendance_count (attendance_count user + 1) user)
       /\ (forall j, j <> i -> nth_error (table_after o) j = nth_error db j)
       /\ length (table_after o) = length db
       /\ commits o = [table_after o]
       /\ exists msg,
           response o
           = Json (Recognized (reg_no user) (name user) (attendance_count user + 1) msg))
   \/ (table_after o = db /\ commits o = []
       /\ exists msg, response o = Json (NotRecognized msg)))
  /\ (db = [] \/ (rnd <? 0.5)%float = false ->
      table_after o = db /\ commits o = []
      /\ exists msg, response o = Json (NotRecognized msg))
  /\ (forall r db',
        (forall rnd' pick', r <> POST_recognize rnd' pick') ->
        handle r db = Some db' ->
        counters db' = counters db
        \/ (exists u, db' = db ++ [u] /\ attendance_count u = 0)
        \/ (exists i, db' = delete_row i db))
  /\ (forall r db' u',
        handle r db = Some db' -> In u' db' ->
        (exists u, In u db /\ id u' = id u
                   /\ attendance_count u <= attendance_count u' <= attendance_count u + 1)
        \/ attendance_count u' = 0).
Proof.
  intros o. pose proof (recognize_cases rnd pick db) as Hc. fold o in Hc. cbv zeta in Hc.
  split; [ | split; [ | split]].
  - destruct Hc as [(Hne & Hr & user & Hu & Ht & Hcm & Hresp) | (_ & Ht & Hcm & Hresp)];
      [left | right; auto].
    exists (pick mod length db)%nat, user. rewrite Ht.
    repeat split; try assumption.
    + now apply nth_error_set_row_same with (x := user).
    + intros j Hj. apply nth_error_set_row_other. congruence.
    + apply length_set_row.
    + now rewrite <- Ht.
  - intros Hno.
    destruct Hc as [(Hne & Hr & _) | (_ & Ht & Hcm & Hresp)]; [ | auto].
    destruct Hno as [-> | Hf]; congruence.
  - intros r db' Hr Hh. destruct r as [now data | rnd' pick' | today | method today reg_no'
                                        | today | now data_email]; cbn [handle] in Hh.
    + destruct (register now data db) as [o' | ] eqn:Er; [ | discriminate].
      injection Hh as <-.
      destruct (register_cases _ _ _ _ Er) as [(Hdb & _) | (u & Hdb & _ & _ & _ & _ & _ & _ & Hc0 & _)].
      * left. now rewrite Hdb.
      * right. left. exists u. now split.
    + now destruct (Hr rnd' pick').
    + injection Hh as <-. now left.
    + injection Hh as <-.
      destruct (admin_user_table method today reg_no' db) as [-> | (i & ->)];
        [now left | right; right; now exists i].
    + injection Hh as <-. left. now rewrite export_excel_table.
    + injection Hh as <-. left. apply same_counter_rows, check_status_table.
  - intros r db' u' Hh Hin.
    assert (Hkeep : In u' db ->
                    (exists u, In u db /\ id u' = id u
                               /\ attendance_count u <= attendance_count u'
                                  <= attendance_count u + 1)
                    \/ attendance_count u' = 0).
    { intros Hu'. left. exists u'. split; [assumption | split; [reflexivity | lia]]. }
    destruct r as [now data | rnd' pick' | today | method today reg_no'
                  | today | now data_email]; cbn [handle] in Hh.
    + destruct (register now data db) as [o' | ] eqn:Er; [ | discriminate].
      injection Hh as <-.
      destruct (register_cases _ _ _ _ Er) as [(Hdb & _) | (u & Hdb & _ & _ & _ & _ & _ & _ & Hc0 & _)];
        rewrite Hdb in Hin; [auto | ].
      apply in_app_or in Hin. destruct Hin as [Hin | [<- | []]]; [auto | now right].
    + injection Hh as <-.
      destruct (recognize_cases rnd' pick' db)
        as [(Hne & Hr & user & Hu & Ht & _) | (_ & Ht & _)]; rewrite Ht in Hin; [ | auto].
      apply set_row_In in Hin. destruct Hin as [-> | Hin]; [ | auto].
      left. exists user. split; [now apply nth_error_In in Hu | ].
      cbn. split; [reflexivity | lia].
    + injection Hh as <-. auto.
    + injection Hh as <-.
      destruct (admin_user_table method today reg_no' db) as [E | (i & E)];
        rewrite E in Hin; [auto | ].
      apply delete_row_In in Hin. auto.
    + injection Hh as <-. rewrite export_excel_table in Hin. auto.
    + injection Hh as <-.
      destruct (same_counter_rows _ _ (check_status_table now data_email db))
        as (_ & _ & Hrows).
      destruct (Hrows u' Hin) as (u & Hu & Hid & _ & Hcount & _).
      left. exists u. split; [assumption | split; [assumption | lia]].
Qed.

(** With no leaves the percentage is 100 whatever the month. *)
Lemma attendance_percent_of_no_leaves (working_days : Z) :
  0 <= working_days <= 31 -> attendance_percent_of working_days 0 = 100%float.
Proof.
  intros Hw.
  assert (Hn : forall n : nat, (n <= 31)%nat ->
                               attendance_percent_of (Z.of_nat n) 0 = 100%float).
  { intros n Hn. do 32 (destruct n as [ | n]; [reflexivity | ]). lia. }
  rewrite <- (Z2Nat.id working_days) by lia. apply Hn. lia.
Qed.

(** What stands behind a successful answer of [check_status]. *)
Lemma check_status_json (now : datetime) (data_email : pystr) (db : table)
    (body : status_body) :
  response (check_status now data_email db) = Json body ->
  exists user working_days,
    In user db
    /\ get_working_days_in_month (dt_year now) (dt_month now) = Some working_days
    /\ (s_leaves_taken body = leaves_taken user \/ s_leaves_taken body = 0)
    /\ s_attendance_percent body
       = py_round1 (attendance_percent_of working_days (s_leaves_taken body))
    /\ s_messages body
       = advisory_messages (s_leaves_taken body)
           (attendance_percent_of working_days (s_leaves_taken body)).
Proof.
  unfold check_status.
  destruct (is_empty _); [discriminate | ].
  destruct (first_index _ db) as [i | ]; [ | discriminate].
  destruct (nth_error db i) as [user | ] eqn:Eu; [ | discriminate].
  destruct (get_working_days_in_month _ _) as [working_days | ]; [ | discriminate].
  apply nth_error_In in Eu.
  destruct (negb _); cbn [response]; intros [= <-]; exists user, working_days;
    cbn; auto 10.
Qed.

Lemma handle_keeps_leaves (r : request) (db db' : table) :
  handle r db = Some db' ->
  Forall (fun u => leaves_taken u = 0) db -> Forall (fun u => leaves_taken u = 0) db'.
Proof.
  intros Hh Hall.
  destruct r as [now data | rnd pick | today | method today reg_no'
                | today | now data_email]; cbn [handle] in Hh.
  - destruct (register now data db) as [o | ] eqn:Er; [ | discriminate].
    injection Hh as <-.
    destruct (register_cases _ _ _ _ Er)
      as [(Hdb & _) | (u & Hdb & _ & _ & _ & _ & _ & _ & _ & Hl & _)]; rewrite Hdb;
      [assumption | ].
    apply Forall_app. split; [assumption | now constructor].
  - injection Hh as <-.
    destruct (recognize_cases rnd pick db)
      as [(Hne & Hr & user & Hu & Ht & _) | (_ & Ht & _)]; rewrite Ht; [ | assumption].
    rewrite Forall_forall in *. intros x Hx. apply set_row_In in Hx.
    destruct Hx as [-> | Hx]; [ | auto].
    cbn. apply Hall. now apply nth_error_In in Hu.
  - now injection Hh as <-.
  - injection Hh as <-.
    destruct (admin_user_table method today reg_no' db) as [-> | (i & ->)]; [assumption | ].
    rewrite Forall_forall in *. intros x Hx. apply Hall. now apply delete_row_In in Hx.
  - injection Hh as <-. now rewrite export_excel_table.
  - injection Hh as <-.
    now apply (same_counter_rows _ _ (check_status_table now data_email db)).
Qed.

Lemma reachable_leaves (db : table) :
  reachable db -> Forall (fun u => leaves_taken u = 0) db.
Proof.
  induction 1 as [ | r db db' Hreach IH Hh]; [constructor | ].
  now apply (handle_keeps_leaves r db db').
Qed.

(** C10: nothing sets [leaves_taken] to a positive number, a registration
    starts it at 0 and a status check only puts it back to 0, so in every
    table the application can reach every row has [leaves_taken] 0; every
    status check that succeeds there reports 0 leaves and 100 percent, with
    the congratulation as its only message: neither the alert nor the
    warning. *)
Theorem leaves_taken_stays_zero (db : table) :
  reachable db ->
  Forall (fun u => leaves_taken u = 0) db
  /\ forall now data_email body,
       response (check_status now data_email db) = Json body ->
       s_leaves_taken body = 0
       /\ s_attendance_percent body = 100%float
       /\ s_messages body = [great_message]
       /\ ~ In (alert_message (s_leaves_taken body)) (s_messages body)
       /\ forall p, ~ In (warning_message p) (s_messages body).
Proof.
  intros Hreach. pose proof (reachable_leaves db Hreach) as Hall.
  split; [assumption | ]. intros now data_email body Hresp.
  destruct (check_status_json _ _ _ _ Hresp) as (user & wd & Hin & Hwd & Hl & Hp & Hm).
  rewrite Forall_forall in Hall. specialize (Hall user Hin).
  assert (Hz : s_leaves_taken body = 0) by (destruct Hl; lia).
  rewrite Hz in *.
  rewrite (attendance_percent_of_no_leaves wd (get_working_days_in_month_bounds _ _ _ Hwd))
    in Hp, Hm.
  rewrite Hp, Hm. change (advisory_messages 0 100) with [great_message].
  repeat split.
  - intros [E | []]. discriminate E.
  - intros p [E | []]. unfold great_message, warning_message in E. discriminate E.
Qed.
End Handlers.

(** ** Names without a letter *)

Section LetterlessNames.
Context `{PyLib} {laws : PyLibLaws}.

Lemma parsed_suffix_le_max (users : list User) (x : User) (n : Z) :
  In x users -> parse_suffix (reg_no x) = Some n ->
  n <= max_or_zero (parsed_suffixes users).
Proof.
  induction users as [ | u rest IH]; intros Hin Hn; [destruct Hin | ].
  change (u :: rest) with ([u] ++ rest). rewrite parsed_suffixes_app, max_or_zero_app.
  pose proof (max_or_zero_nonneg (parsed_suffixes rest)) as Hpos.
  destruct Hin as [-> | Hin].
  - cbn [parsed_suffixes flat_map]. rewrite Hn. cbn [app max_or_zero fold_right]. lia.
  - specialize (IH Hin Hn). lia.
Qed.

(** The number about to be handed out is on no row yet. *)
Lemma reg_no_fresh (now : datetime) (db : table) (x : User) :
  0 <= dt_year now -> In x db -> reg_no x <> generate_next_reg_no now db.
Proof.
  intros Hy Hin E. rewrite generate_next_reg_no_eq in E.
  pose proof (max_or_zero_nonneg (parsed_suffixes (same_year_rows (dt_year now) db))) as Hpos.
  assert (Hrow : In x (same_year_rows (dt_year now) db)).
  { unfold same_year_rows. apply filter_In. split; [assumption | ].
    rewrite E. apply sql_like_prefix_app. }
  assert (Hparse : parse_suffix (reg_no x)
                   = Some (max_or_zero (parsed_suffixes (same_year_rows (dt_year now) db)) + 1)).
  { rewrite E. apply parse_suffix_generated; lia. }
  pose proof (parsed_suffix_le_max _ _ _ Hrow Hparse). lia.
Qed.


End LetterlessNames.

(** ** The ASCII library satisfies the laws *)

Lemma ascii_lib_laws : @PyLibLaws ascii_lib.
Proof.
  constructor; cbn.
  - reflexivity.
  - reflexivity.
  - intros s Hne Hall. unfold ascii_digits_int. rewrite Hall.
    destruct s; [congruence | reflexivity].
Qed.

(** * Examples

    Each statement above that has a premise is applied once to ASCII input,
    where the ASCII library does what the interpreter does. *)

Lemma check_status_attendance_percent_witness :
  exists body,
    response (@check_status ascii_lib mid_february_2024 (py "Ada.Lovelace@company.com")
                [ada_row]) = Json body
    /\ s_leaves_taken body = 3
    /\ s_attendance_percent body = 85.7%float.
Proof.
  destruct (@check_status_attendance_percent ascii_lib mid_february_2024
              (py "Ada.Lovelace@company.com") [ada_row] 0%nat)
    as (body & Hr & Hpos & _ & _).
  - unfold valid_now. simpl. lia.
  - vm_compute. discriminate.
  - reflexivity.
  - exists body. split; [exact Hr | ].
    assert (E : s_leaves_taken body = 3).
    { vm_compute in Hr. injection Hr as <-. reflexivity. }
    split; [exact E | ].
    rewrite Hpos by (vm_compute; reflexivity). rewrite E. reflexivity.
Defined.

Lemma check_status_messages_witness :
  exists body,
    response (@check_status ascii_lib mid_february_2024 (py "Ada.Lovelace@company.com")
                [ada_row]) = Json body
    /\ s_messages body
       = [py "Alert: You have taken more than 2 leaves (3) this month.";
          py "Warning: Your attendance is below 90% (85.7%)."].
Proof.
  destruct (@check_status_messages ascii_lib mid_february_2024
              (py "Ada.Lovelace@company.com") [ada_row] 0%nat)
    as (body & user' & Hr & Hm & _).
  - unfold valid_now. simpl. lia.
  - vm_compute. discriminate.
  - reflexivity.
  - exists body. split; [exact Hr | ].
    assert (E : s_leaves_taken body = 3).
    { vm_compute in Hr. injection Hr as <-. reflexivity. }
    rewrite Hm, E. reflexivity.
Defined.

Lemma check_status_rollover_witness :
  exists body db1 user',
    commits (@check_status ascii_lib mid_march_2024 (py "ada.lovelace@company.com")
               [ada_row])
    = [db1; table_after (@check_status ascii_lib mid_march_2024
                           (py "ada.lovelace@company.com") [ada_row])]
    /\ nth_error db1 0 = Some user'
    /\ leaves_taken user' = 0
    /\ last_leave_month user' = Some (py "2024-3")
    /\ response (@check_status ascii_lib mid_march_2024 (py "ada.lovelace@company.com")
                  [ada_row]) = Json body
    /\ s_leaves_taken body = 0.
Proof.
  destruct (@check_status_rollover ascii_lib mid_march_2024
              (py "ada.lovelace@company.com") [ada_row] 0%nat ada_row) as [Hroll _].
  - unfold valid_now. simpl. lia.
  - vm_compute. discriminate.
  - reflexivity.
  - reflexivity.
  - destruct Hroll as (body & user' & db1 & Hc & Hdb1 & _ & _ & _ & Hr & Hl & _).
    + vm_compute. discriminate.
    + exists body, db1. eexists. split; [exact Hc | ].
      rewrite Hdb1. split; [reflexivity | ]. repeat split; assumption.
Defined.




Lemma leaves_taken_stays_zero_witness :
  @reachable ascii_lib [first_row_2024 (py "Madonna") (py "madonna@company.com")]
  /\ response (@check_status ascii_lib mid_march_2024 (py "madonna@company.com")
                 [first_row_2024 (py "Madonna") (py "madonna@company.com")])
     = Json {| s_name := py "Madonna"; s_attendance_count := 0; s_leaves_taken := 0;
               s_attendance_percent := 100; s_messages := [great_message] |}
  /\ forall p,
       ~ In (warning_message p)
           (s_messages {| s_name := py "Madonna"; s_attendance_count := 0;
                          s_leaves_taken := 0; s_attendance_percent := 100;
                          s_messages := [great_message] |}).
Proof.
  assert (Hreach : @reachable ascii_lib
                     [first_row_2024 (py "Madonna") (py "madonna@company.com")]).
  { apply (@reachable_handle ascii_lib
             (POST_register mid_february_2024 (request_for (py "Madonna"))) []).
    - apply reachable_empty.
    - vm_compute. reflexivity. }
  assert (Hresp : response (@check_status ascii_lib mid_march_2024
                              (py "madonna@company.com")
                              [first_row_2024 (py "Madonna") (py "madonna@company.com")])
                  = Json {| s_name := py "Madonna"; s_attendance_count := 0;
                            s_leaves_taken := 0; s_attendance_percent := 100;
                            s_messages := [great_message] |})
    by (vm_compute; reflexivity).
  split; [exact Hreach | ]. split; [exact Hresp | ].
  destruct (@leaves_taken_stays_zero ascii_lib _ Hreach) as [_ Hstatus].
  exact (proj2 (proj2 (proj2 (proj2 (Hstatus _ _ _ Hresp))))).
Defined.

Lemma recognize_effect_witness :
  table_after (recognize 0.25%float 7 [ada_row])
  = [set_attendance_count 5 ada_row]
  /\ table_after (recognize 0.75%float 7 [ada_row]) = [ada_row].
Proof.
  destruct (@recognize_effect ascii_lib 0.75%float 7 [ada_row]) as (_ & Hnot & _).
  split; [vm_compute; reflexivity | ].
  apply Hnot. right. vm_compute. reflexivity.
Defined.

(** * Further properties of the program *)

(** ** Working days of a month *)

Lemma filter_map_length {A B : Type} (p : B -> bool) (f : A -> B) (l : list A) :
  length (filter p (map f l)) = length (filter (fun x => p (f x)) l).
Proof.
  induction l as [ | x l IH]; [reflexivity | ]. cbn [map filter].
  destruct (p (f x)); cbn [length]; now rewrite IH.
Qed.

(** Within a month the weekday advances with the day of the month. *)
Lemma weekday_in_month (year month day : Z) :
  weekday (mk_date year month day)
  = ((days_before_year year + days_before_month year month + 6) mod 7 + day) mod 7.
Proof.
  unfold weekday, toordinal. cbn [d_year d_month d_day].
  rewrite Zplus_mod_idemp_l. f_equal. lia.
Qed.

Lemma weekdays_in_month_from (year month : Z) :
  weekdays_in_month year month
  = working_days_from ((days_before_year year + days_before_month year month + 6) mod 7)
      (days_in_month year month).
Proof.
  unfold weekdays_in_month, working_days_from, month_dates. f_equal.
  rewrite filter_map_length. f_equal. apply filter_ext. intros d.
  now rewrite weekday_in_month.
Qed.

Lemma working_days_from_range (w days : Z) :
  0 <= w < 7 -> 28 <= days <= 31 ->
  20 <= working_days_from w days <= 23 /\ (days = 28 -> working_days_from w days = 20).
Proof.
  intros Hw Hd.
  assert (Cw : w = 0 \/ w = 1 \/ w = 2 \/ w = 3 \/ w = 4 \/ w = 5 \/ w = 6) by lia.
  assert (Cd : days = 28 \/ days = 29 \/ days = 30 \/ days = 31) by lia.
  destruct Cw as [-> | [-> | [-> | [-> | [-> | [-> | ->]]]]]];
    destruct Cd as [-> | [-> | [-> | ->]]]; vm_compute; repeat split; congruence.
Qed.

(** X1: every month has between 20 and 23 working days, and a February of
    28 days has exactly 20; so the division of [check_status] is always by a
    positive number. *)
Theorem working_days_between_20_and_23 (year month : Z) :
  1 <= year <= 9999 -> 1 <= month <= 12 ->
  exists working_days,
    get_working_days_in_month year month = Some working_days
    /\ 20 <= working_days <= 23
    /\ (days_in_month year month = 28 -> working_days = 20).
Proof.
  intros Hy Hm. exists (weekdays_in_month year month).
  split; [now apply working_days_eq | ].
  rewrite weekdays_in_month_from.
  apply working_days_from_range.
  - apply Z.mod_pos_bound. lia.
  - now apply days_in_month_range.
Qed.

Lemma working_days_between_20_and_23_witness :
  exists working_days,
    get_working_days_in_month 2023 2 = Some working_days /\ working_days = 20.
Proof.
  destruct (working_days_between_20_and_23 2023 2) as (wd & E & _ & H28); [lia | lia | ].
  exists wd. split; [exact E | apply H28; reflexivity].
Defined.

(** ** The percentage that is reported *)

(** X2: for the months and leave counts up to 31, the percentage reported
    is the binary64 nearest to the exact percentage rounded to tenths, half
    to even; the text in the warning shows the same tenths; the tenths lie
    between 0 and 1000 and reach 1000 only without leaves. *)
Theorem reported_percent_exact (working_days leaves_taken' : Z) :
  1 <= working_days <= 31 -> 0 <= leaves_taken' <= 31 ->
  let n := exact_tenths working_days leaves_taken' in
  py_round1 (attendance_percent_of working_days leaves_taken') = decimal1 n
  /\ format_1f (attendance_percent_of working_days leaves_taken')
     = str_int (n / 10) ++ py "." ++ str_int (n mod 10)
  /\ 0 <= n <= 1000
  /\ (n = 1000 -> leaves_taken' = 0).
Proof.
  intros Hw Hl.
  assert (Hn : forall a b : nat,
             (a <= 30)%nat -> (b <= 31)%nat ->
             let n := exact_tenths (Z.of_nat (S a)) (Z.of_nat b) in
             py_round1 (attendance_percent_of (Z.of_nat (S a)) (Z.of_nat b)) = decimal1 n
             /\ format_1f (attendance_percent_of (Z.of_nat (S a)) (Z.of_nat b))
                = str_int (n / 10) ++ py "." ++ str_int (n mod 10)
             /\ 0 <= n <= 1000
             /\ (n = 1000 -> Z.of_nat b = 0)).
  { intros a b Ha Hb.
    do 31 (destruct a as [ | a];
           [do 32 (destruct b as [ | b];
                   [vm_compute; repeat split; congruence | ]); lia | ]).
    lia. }
  replace working_days with (Z.of_nat (S (Z.to_nat (working_days - 1)))) by lia.
  replace leaves_taken' with (Z.of_nat (Z.to_nat leaves_taken')) by lia.
  apply Hn; lia.
Qed.

Lemma reported_percent_exact_witness :
  py_round1 (attendance_percent_of 22 1) = 95.5%float
  /\ format_1f (attendance_percent_of 22 1) = py "95.5".
Proof.
  destruct (reported_percent_exact 22 1) as (Hr & Hf & _); [lia | lia | ].
  rewrite Hr, Hf. split; vm_compute; reflexivity.
Defined.

(** ** Status checks *)

Lemma first_index_set_row (p : User -> bool) (i : nat) (u u' : User) (db : table) :
  nth_error db i = Some u -> p u' = p u ->
  first_index p (set_row i u' db) = first_index p db.
Proof.
  revert i. induction db as [ | x rest IH]; intros [ | i]; cbn [nth_error set_row first_index];
    try discriminate.
  - intros [= ->] ->. reflexivity.
  - intros Hu Hp. now rewrite (IH i Hu Hp).
Qed.

Lemma same_person_refl (u : User) : same_person u u.
Proof. unfold same_person. auto 10. Qed.

Lemma Forall2_same_person_refl (db : table) : Forall2 same_person db db.
Proof. induction db; constructor; [apply same_person_refl | assumption]. Qed.

Lemma Forall2_same_person_set_row (i : nat) (x u : User) (db : table) :
  nth_error db i = Some x -> same_person x u -> Forall2 same_person db (set_row i u db).
Proof.
  revert i. induction db as [ | y rest IH]; intros [ | i]; cbn [nth_error set_row];
    try discriminate.
  - intros [= ->] Hr. constructor; [assumption | apply Forall2_same_person_refl].
  - intros Hx Hr. constructor; [apply same_person_refl | now apply IH].
Qed.

Section StatusChecks.
Context `{PyLib}.

(** X3: a status check repeated at the same moment answers as the first
    did and leaves the table as the first left it; when the first was
    answered with a body, the second commits that same table once and rolls
    nothing over. *)
Theorem check_status_twice (now : datetime) (data_email : pystr) (db : table) :
  let first := check_status now data_email db in
  let second := check_status now data_email (table_after first) in
  response second = response first
  /\ table_after second = table_after first
  /\ (forall body, response first = Json body -> commits second = [table_after first]).
Proof.
  cbv zeta. unfold check_status.
  destruct (is_empty (str_lower (strip data_email))) eqn:Ek.
  { cbn [table_after response]. repeat split. discriminate. }
  destruct (first_index (has_email (str_lower (strip data_email))) db) as [i | ] eqn:Ei.
  2: { cbn [table_after response]. rewrite ?Ei. repeat split. discriminate. }
  destruct (nth_error db i) as [user | ] eqn:Eu.
  2: { cbn [table_after response]. rewrite ?Ei, ?Eu. repeat split. discriminate. }
  destruct (get_working_days_in_month (dt_year now) (dt_month now)) as [wd | ] eqn:Ew.
  2: { cbn [table_after response]. rewrite ?Ei, ?Eu. repeat split. discriminate. }
  fold (month_tag now).
  assert (Htag : pystr_eqb (month_tag now) (month_tag now) = true) by apply pystr_eqb_refl.
  destruct (option_pystr_eqb (last_leave_month user) (month_tag now)) eqn:Et;
    cbn [negb table_after response commits]; rewrite ?set_row_set_row;
    (erewrite first_index_set_row; [ | exact Eu | reflexivity]); rewrite Ei;
    (erewrite nth_error_set_row_same; [ | exact Eu]);
    cbn [last_leave_month set_messages set_last_leave_month set_leaves_taken
           option_pystr_eqb]; rewrite ?Et, ?Htag; cbn [negb];
    cbn [table_after response commits app]; rewrite ?set_row_set_row;
    repeat split.
Qed.

(** X4: a status check keeps the rows in place and writes no column but
    [leaves_taken], [last_leave_month] and [messages]; it leaves every row
    but the first one that carries the address exactly as it was. *)
Theorem check_status_frame (now : datetime) (data_email : pystr) (db : table) :
  let o := check_status now data_email db in
  Forall2 same_person db (table_after o)
  /\ forall j,
      first_index (has_email (str_lower (strip data_email))) db <> Some j ->
      nth_error (table_after o) j = nth_error db j.
Proof.
  cbv zeta. unfold check_status.
  destruct (is_empty _); [split; [apply Forall2_same_person_refl | reflexivity] | ].
  destruct (first_index _ db) as [i | ];
    [ | split; [apply Forall2_same_person_refl | reflexivity]].
  destruct (nth_error db i) as [user | ] eqn:Eu;
    [ | split; [apply Forall2_same_person_refl | reflexivity]].
  destruct (get_working_days_in_month _ _);
    [ | split; [apply Forall2_same_person_refl | reflexivity]].
  destruct (negb _); cbn [table_after]; rewrite ?set_row_set_row; split.
  - apply Forall2_same_person_set_row with (x := user); [assumption | ].
    unfold same_person. cbn. auto 10.
  - intros j Hj. apply nth_error_set_row_other. congruence.
  - apply Forall2_same_person_set_row with (x := user); [assumption | ].
    unfold same_person. cbn. auto 10.
  - intros j Hj. apply nth_error_set_row_other. congruence.
Qed.

Context {laws : PyLibLaws}.

End StatusChecks.

(** ** Registrations *)

Lemma existsb_false_forall {A : Type} (p : A -> bool) (l : list A) :
  existsb p l = false -> forall x, In x l -> p x = false.
Proof.
  intros He x Hx. destruct (p x) eqn:Px; [ | reflexivity].
  assert (existsb p l = true) by (apply existsb_exists; eauto). congruence.
Qed.

Lemma first_index_app_last (p : User -> bool) (db : table) (u : User) :
  existsb p db = false -> p u = true -> first_index p (db ++ [u]) = Some (length db).
Proof.
  induction db as [ | x rest IH]; cbn [existsb app first_index length]; intros He Hu.
  - now rewrite Hu.
  - apply orb_false_elim in He. destruct He as [Hx Hrest].
    now rewrite Hx, (IH Hrest Hu).
Qed.

Lemma nth_error_app_last (db : table) (u : User) :
  nth_error (db ++ [u]) (length db) = Some u.
Proof. induction db as [ | x rest IH]; [reflexivity | exact IH]. Qed.

Lemma id_below_next_id (db : table) (u : User) : In u db -> id u < next_id db.
Proof.
  unfold next_id. induction db as [ | x rest IH]; intros Hin; [destruct Hin | ].
  cbn [fold_right]. destruct Hin as [-> | Hin].
  - lia.
  - specialize (IH Hin). lia.
Qed.

Lemma map_set_row {B : Type} (f : User -> B) (i : nat) (x u : User) (db : table) :
  nth_error db i = Some x -> f u = f x -> map f (set_row i u db) = map f db.
Proof.
  revert i. induction db as [ | y rest IH]; intros [ | i]; cbn [nth_error set_row map];
    try discriminate.
  - intros [= ->] ->. reflexivity.
  - intros Hx Hf. now rewrite (IH i Hx Hf).
Qed.

Lemma NoDup_map_delete_row {B : Type} (f : User -> B) (i : nat) (db : table) :
  NoDup (map f db) -> NoDup (map f (delete_row i db)).
Proof.
  revert i. induction db as [ | y rest IH]; intros [ | i]; cbn [delete_row map];
    intros Hnd; try assumption.
  - now inversion Hnd.
  - inversion Hnd as [ | ? ? Hy Hrest]; subst. constructor; [ | now apply IH].
    intros Hin. apply Hy. apply in_map_iff in Hin. destruct Hin as (x & E & Hx).
    apply in_map_iff. exists x. split; [assumption | now apply delete_row_In in Hx].
Qed.

Lemma address_char_is_plain (c : N) : is_address_char c = true -> is_plain c = true.
Proof.
  unfold is_address_char. intros Hc.
  apply orb_prop in Hc. destruct Hc as [Hc | Hc]; [ | apply N.eqb_eq in Hc; now subst].
  apply orb_prop in Hc. destruct Hc as [Hc | Hc]; [ | apply N.eqb_eq in Hc; now subst].
  apply orb_prop in Hc. destruct Hc as [Hc | Hc];
    [now apply lower_letter_is_plain | now apply digit_is_plain].
Qed.

Lemma address_char_is_no_space (c : N) : is_address_char c = true -> py_isspace c = false.
Proof.
  unfold is_address_char, is_lower_letter, is_ascii_digit, py_isspace. intros Hc.
  repeat match goal with
         | H : (_ || _)%bool = true |- _ => apply orb_prop in H; destruct H as [H | H]
         | H : (_ && _)%bool = true |- _ => apply andb_prop in H; destruct H
         | H : (_ <=? _)%N = true |- _ => apply N.leb_le in H
         | H : (_ =? _)%N = true |- _ => apply N.eqb_eq in H
         end;
    repeat match goal with
           | |- (_ || _)%bool = false => apply orb_false_intro
           end;
    try (apply N.eqb_neq; lia);
    try (apply andb_false_intro1; apply N.leb_gt; lia);
    try (apply andb_false_intro2; apply N.leb_gt; lia).
Qed.

Lemma lstrip_no_space (s : pystr) :
  forallb is_address_char s = true -> lstrip s = s.
Proof.
  destruct s as [ | c t]; [reflexivity | ]. cbn [forallb lstrip]. intros Hs.
  apply andb_prop in Hs. now rewrite (address_char_is_no_space c (proj1 Hs)).
Qed.

(** Text made of address characters has no blank to strip. *)
Lemma strip_address (s : pystr) : forallb is_address_char s = true -> strip s = s.
Proof.
  intros Hs. unfold strip. rewrite (lstrip_no_space s Hs).
  rewrite lstrip_no_space, rev_involutive; [reflexivity | ].
  apply forallb_forall. intros c Hc. apply in_rev in Hc.
  rewrite forallb_forall in Hs. now apply Hs.
Qed.

Lemma local_part_address (parts : list pystr) :
  Forall (fun p => p <> [] /\ forallb is_lower_letter p = true) parts ->
  forallb is_address_char (local_part parts) = true.
Proof.
  intros Hparts.
  assert (Hl : forall c, is_lower_letter c = true -> is_address_char c = true).
  { intros c Hc. unfold is_address_char. now rewrite Hc. }
  assert (Hp : forall p, In p parts -> forallb is_address_char p = true).
  { rewrite Forall_forall in Hparts. intros p Hin.
    apply (forallb_impl is_lower_letter); [exact Hl | ]. now apply Hparts. }
  assert (Hnth : forallb is_address_char (nth 0 parts []) = true).
  { destruct parts as [ | p rest]; [reflexivity | ]. apply Hp. now left. }
  assert (Hlast : forallb is_address_char (last parts []) = true).
  { destruct parts as [ | p rest]; [reflexivity | ].
    apply Hp. apply last_is_member. discriminate. }
  unfold local_part. destruct (length parts =? 1)%nat; [assumption | ].
  rewrite !forallb_app, Hnth, Hlast. reflexivity.
Qed.

Lemma candidate_address (parts : list pystr) (k : nat) :
  Forall (fun p => p <> [] /\ forallb is_lower_letter p = true) parts ->
  forallb is_address_char (email_candidate parts k) = true.
Proof.
  intros Hparts. rewrite email_candidate_eq, !forallb_app.
  rewrite (local_part_address parts Hparts). cbn [andb].
  apply andb_true_intro. split; [ | reflexivity].
  destruct k as [ | k]; [reflexivity | ]. cbn [counter_suffix].
  rewrite str_int_nonneg by lia.
  destruct (digits_spec (Z.of_nat (S k)) ltac:(lia)) as (_ & Hd & _).
  apply (forallb_impl is_ascii_digit); [ | exact Hd].
  intros c Hc. unfold is_address_char. rewrite Hc. apply orb_true_iff. left.
  apply orb_true_iff. left. apply orb_true_r.
Qed.

Section Registrations.
Context `{PyLib}.

(** Everything that is known of a registration that was accepted. *)
Lemma register_accepted (now : datetime) (data : register_request) (db : table)
    (o : outcome register_body) (body : register_body) :
  register now data db = Some o -> response o = Json body ->
  exists u,
    table_after o = db ++ [u] /\ commits o = [db ++ [u]]
    /\ body = {| rb_reg_no := reg_no u; rb_email := email u; rb_name := name u |}
    /\ id u = next_id db
    /\ reg_no u = generate_next_reg_no now db
    /\ name u = strip (rq_name data)
    /\ name u <> []
    /\ gender u = strip (rq_gender data)
    /\ strptime_ymd (strip (rq_dob data)) = Some (dob u)
    /\ generate_email db (name u) = Some (email u)
    /\ attendance_count u = 0 /\ leaves_taken u = 0
    /\ last_leave_month u = None /\ messages u = Some []
    /\ existsb (has_name (str_lower (name u))) db = false
    /\ existsb (has_email (str_lower (email u))) db = false
    /\ existsb (fun x => pystr_eqb (reg_no x) (reg_no u) || pystr_eqb (email x) (email u)) db
       = false.
Proof.
  unfold register.
  destruct (is_empty (strip (rq_name data))) eqn:En; cbn [orb].
  { intros [= <-]. discriminate. }
  destruct (is_empty (strip (rq_dob data)) || is_empty (strip (rq_gender data))
            || is_empty (strip (rq_face_image data))).
  { intros [= <-]. discriminate. }
  destruct (existsb (has_name (str_lower (strip (rq_name data)))) db) eqn:Edn.
  { intros [= <-]. discriminate. }
  destruct (strptime_ymd (strip (rq_dob data))) as [dob' | ] eqn:Ed.
  2: { intros [= <-]. discriminate. }
  destruct (generate_email db (strip (rq_name data))) as [email' | ] eqn:Ee; [ | discriminate].
  destruct (existsb (has_email (str_lower email')) db) eqn:Edup.
  { intros [= <-]. discriminate. }
  match goal with |- context [if ?c then _ else _] => destruct c eqn:Euniq end.
  { intros [= <-]. discriminate. }
  intros [= <-]. cbn [response table_after commits]. intros [= <-].
  eexists. split; [reflexivity | ]. cbn.
  repeat split; try assumption; try reflexivity.
  intros C. rewrite C in En. discriminate.
Qed.

(** X10: once a registration is accepted, asking the administration for the
    number it returned finds the new user, with the name and address that
    were returned, the gender that was sent and no attendance yet, and
    changes nothing. *)
Theorem register_then_lookup (now today : datetime) (data : register_request)
    (db : table) (o : outcome register_body) (body : register_body) :
  register now data db = Some o -> response o = Json body ->
  exists v,
    admin_user GET today (rb_reg_no body) (table_after o)
    = mk_outcome (Json (Found v)) (table_after o) []
    /\ v_reg_no v = rb_reg_no body /\ v_name v = rb_name body
    /\ v_email v = rb_email body /\ v_gender v = strip (rq_gender data)
    /\ v_attendance_count v = 0.
Proof.
  intros Hr Hb.
  destruct (register_accepted _ _ _ _ _ Hr Hb)
    as (u & Ht & _ & -> & _ & _ & _ & _ & Hg & _ & _ & Hc & _ & _ & _ & _ & _ & Huniq).
  cbn [rb_reg_no rb_email rb_name]. rewrite Ht. unfold admin_user.
  rewrite (first_index_app_last (fun x => pystr_eqb (reg_no x) (reg_no u)) db u).
  - rewrite nth_error_app_last. eexists. split; [reflexivity | ]. cbn. auto.
  - apply not_true_is_false. intros C. apply existsb_exists in C.
    destruct C as (x & Hx & Hp).
    pose proof (existsb_false_forall _ _ Huniq x Hx) as Hf. cbn in Hf.
    rewrite Hp in Hf. discriminate.
  - apply pystr_eqb_refl.
Qed.
End Registrations.

Section RegistrationsWithLaws.
Context `{PyLib} {laws : PyLibLaws}.

Lemma str_lower_address (e : pystr) : forallb is_address_char e = true -> str_lower e = e.
Proof.
  intros He. apply str_lower_plain.
  apply (forallb_impl is_address_char); [apply address_char_is_plain | exact He].
Qed.

Lemma sql_lower_address (e : pystr) : forallb is_address_char e = true -> sql_lower e = e.
Proof.
  intros He. apply map_ascii_lower_plain.
  apply (forallb_impl is_address_char); [apply address_char_is_plain | exact He].
Qed.

(** What a derived address looks like. *)
Lemma generate_email_address (db : table) (name' e : pystr) :
  generate_email db name' = Some e ->
  (split_ws (normalize_name name') = [] /\ e = [])
  \/ (split_ws (normalize_name name') <> []
      /\ forallb is_address_char e = true
      /\ collides db e = false
      /\ exists local, local <> [] /\ e = local ++ py "@company.com").
Proof.
  intros He.
  destruct (split_ws (normalize_name name')) as [ | p rest] eqn:Ep.
  - left. split; [reflexivity | ]. unfold generate_email in He.
    destruct name'; [congruence | ]. rewrite Ep in He. congruence.
  - right. split; [discriminate | ].
    destruct (generate_email_first_free db name') as (k & E & _ & Hfree & _);
      [rewrite Ep; discriminate | ].
    rewrite He in E. injection E as ->. rewrite Ep in *.
    pose proof (tokens_are_words (encode_ascii_ignore
                  (unicodedata_normalize_NFD (str_lower (strip name'))))) as Hw.
    fold (normalize_name name') in Hw. rewrite Ep in Hw.
    split; [now apply candidate_address | ]. split; [exact Hfree | ].
    rewrite email_candidate_eq, app_assoc. eexists. split; [ | reflexivity].
    intros C. apply app_eq_nil in C. destruct C as [C _].
    unfold local_part in C. inversion Hw as [ | ? ? [Hne _] _]; subst.
    destruct (length (p :: rest) =? 1)%nat; cbn [nth] in C; [congruence | ].
    apply app_eq_nil in C. tauto.
Qed.

(** X16: the derivation always returns; for a name with a token the address
    is made of small letters, digits, dots and the at sign, ends with
    [@company.com] after a non-empty local part, is its own lowering and its
    own stripping, and collides with no stored address. *)
Theorem generate_email_shape (db : table) (name' : pystr) :
  split_ws (normalize_name name') <> [] ->
  exists e local,
    generate_email db name' = Some e
    /\ e = local ++ py "@company.com" /\ local <> []
    /\ forallb is_address_char e = true
    /\ str_lower e = e /\ strip e = e
    /\ collides db e = false.
Proof.
  intros Hparts. destruct (generate_email_returns db name') as (e & He).
  destruct (generate_email_address db name' e He)
    as [[Hno _] | (_ & Hchars & Hfree & local & Hl & El)]; [congruence | ].
  exists e, local. repeat split; try assumption.
  - now apply str_lower_address.
  - now apply strip_address.
Qed.

(** X6: the commit of a registration cannot violate the uniqueness of the
    columns [reg_no] and [email]: once the derived address has passed the
    handler's own check for a duplicate, neither the number about to be
    stored nor that address is on any row. *)
Theorem register_commit_is_unique (now : datetime) (db : table) (name' e : pystr) :
  valid_now now ->
  generate_email db name' = Some e ->
  existsb (has_email (str_lower e)) db = false ->
  existsb (fun x => pystr_eqb (reg_no x) (generate_next_reg_no now db) || pystr_eqb (email x) e)
    db = false
  /\ ~ In (generate_next_reg_no now db) (map reg_no db)
  /\ ~ In e (map email db).
Proof.
  intros (Hy & _) Ee Edup.
  assert (Hreg : ~ In (generate_next_reg_no now db) (map reg_no db)).
  { intros Hin. apply in_map_iff in Hin. destruct Hin as (x & E & Hx).
    now apply (reg_no_fresh now db x ltac:(lia) Hx). }
  assert (Hem : ~ In e (map email db)).
  { intros Hin. apply in_map_iff in Hin. destruct Hin as (x & Hm & Hx).
    pose proof (existsb_false_forall _ _ Edup x Hx) as Hf. unfold has_email in Hf.
    apply pystr_eqb_neq in Hf. apply Hf. rewrite Hm.
    destruct (generate_email_address db _ _ Ee) as [[_ ->] | (_ & Hchars & _)].
    - rewrite str_lower_ascii by reflexivity. reflexivity.
    - now rewrite sql_lower_address, str_lower_address. }
  split; [ | split; assumption].
  apply not_true_is_false. intros C. apply existsb_exists in C.
  destruct C as (x & Hx & Hor). apply orb_prop in Hor. destruct Hor as [Hr | Hm].
  - apply pystr_eqb_eq in Hr. apply Hreg. rewrite <- Hr. now apply in_map.
  - apply pystr_eqb_eq in Hm. apply Hem. rewrite <- Hm. now apply in_map.
Qed.

(** X7: after a registration under an ASCII name is accepted, a further
    registration under that name, in whatever case and with whatever blanks
    around it, is refused as a duplicate and writes nothing. *)
Theorem register_same_name_refused (now now' : datetime) (data data' : register_request)
    (db : table) (o : outcome register_body) (body : register_body) :
  register now data db = Some o -> response o = Json body ->
  is_ascii (strip (rq_name data)) = true ->
  is_ascii (strip (rq_name data')) = true ->
  map ascii_lower (strip (rq_name data')) = map ascii_lower (strip (rq_name data)) ->
  strip (rq_dob data') <> [] -> strip (rq_gender data') <> [] ->
  strip (rq_face_image data') <> [] ->
  register now' data' (table_after o)
  = Some (mk_outcome
            (Error 400 (py "User with name " ++ quoted (strip (rq_name data'))
                        ++ py " already registered."))
            (table_after o) []).
Proof.
  intros Hr Hb Ha Ha' Hsame Hdob Hgender Hface.
  destruct (register_accepted _ _ _ _ _ Hr Hb)
    as (u & Ht & _ & _ & _ & _ & Hn & Hne & _).
  assert (Hne' : strip (rq_name data') <> []).
  { intros C. rewrite C in Hsame. cbn [map] in Hsame.
    apply Hne. rewrite Hn. symmetry in Hsame. now apply map_eq_nil in Hsame. }
  unfold register.
  assert (Hfields : is_empty (strip (rq_name data')) || is_empty (strip (rq_dob data'))
                    || is_empty (strip (rq_gender data'))
                    || is_empty (strip (rq_face_image data')) = false).
  { destruct (strip (rq_name data')), (strip (rq_dob data')), (strip (rq_gender data')),
      (strip (rq_face_image data')); try congruence; reflexivity. }
  rewrite Hfields.
  assert (Hdup : existsb (has_name (str_lower (strip (rq_name data')))) (table_after o) = true).
  { rewrite Ht, existsb_app. apply orb_true_iff. right. cbn [existsb].
    rewrite orb_false_r. unfold has_name, sql_lower.
    rewrite str_lower_ascii by assumption. rewrite Hn, Hsame. apply pystr_eqb_refl. }
  now rewrite Hdup.
Qed.

(** X12: the address returned by an accepted registration, when it is not
    empty, opens the status of the new user: the name that was registered,
    no attendance, no leaves, 100 percent and the congratulation alone.
    When it is empty, no status check can reach the user: the address is
    refused as missing. *)
Theorem register_then_status (now now' : datetime) (data : register_request)
    (db : table) (o : outcome register_body) (body : register_body) :
  register now data db = Some o -> response o = Json body ->
  valid_now now' ->
  (rb_email body <> [] ->
   response (check_status now' (rb_email body) (table_after o))
   = Json {| s_name := rb_name body; s_attendance_count := 0; s_leaves_taken := 0;
             s_attendance_percent := 100; s_messages := [great_message] |})
  /\ (rb_email body = [] ->
      response (check_status now' (rb_email body) (table_after o))
      = Error 400 (py "Please enter an email address.")).
Proof.
  intros Hr Hb Hnow.
  destruct (register_accepted _ _ _ _ _ Hr Hb)
    as (u & Ht & _ & -> & _ & _ & _ & _ & _ & _ & He & Hc & Hl & Hm & _ & _ & Hdup & _).
  cbn [rb_email rb_name]. split; intros Hempty.
  - destruct (generate_email_address db _ _ He) as [[_ C] | (_ & Hchars & _)];
      [congruence | ].
    assert (Hkey : str_lower (strip (email u)) = email u)
      by now rewrite strip_address, str_lower_address.
    rewrite str_lower_address in Hdup by assumption.
    assert (Hi : first_index (has_email (str_lower (strip (email u)))) (table_after o)
                 = Some (length db)).
    { rewrite Hkey, Ht. apply first_index_app_last; [assumption | ].
      unfold has_email. rewrite sql_lower_address by assumption. apply pystr_eqb_refl. }
    rewrite (check_status_found now' (email u) (table_after o) (length db) u Hnow).
    + cbn [response]. rewrite Hm. cbn [option_pystr_eqb negb].
      cbn [leaves_taken set_last_leave_month set_leaves_taken].
      destruct Hnow as [Hy Hmo].
      pose proof (get_working_days_in_month_bounds _ _ _ (working_days_eq _ _ Hy Hmo)) as Hw.
      rewrite (attendance_percent_of_no_leaves _ Hw).
      change (advisory_messages 0 100) with [great_message].
      change (py_round1 100) with 100%float. now rewrite Hc.
    + rewrite Hkey. exact Hempty.
    + exact Hi.
    + rewrite Ht. apply nth_error_app_last.
  - rewrite Hempty. unfold check_status. change (strip []) with (@nil N).
    rewrite str_lower_ascii by reflexivity. reflexivity.
Qed.
End RegistrationsWithLaws.

(** ** Tables the application can reach *)

Lemma NoDup_app_snoc {A : Type} (l : list A) (x : A) :
  NoDup l -> ~ In x l -> NoDup (l ++ [x]).
Proof.
  induction 1 as [ | y l Hy Hl IH]; intros Hx; cbn [app].
  - constructor; [intros [] | constructor].
  - constructor.
    + intros Hin. apply in_app_or in Hin. destruct Hin as [Hin | [-> | []]].
      * now apply Hy.
      * apply Hx. now left.
    + apply IH. intros Hin. apply Hx. now right.
Qed.

Section ReachableTables.
Context `{PyLib} {laws : PyLibLaws}.

(** What a request does to the keys of the rows. *)
Lemma handle_keys (r : request) (db db' : table) :
  handle r db = Some db' ->
  map (fun u => (id u, reg_no u, email u)) db' = map (fun u => (id u, reg_no u, email u)) db
  \/ (exists u,
        db' = db ++ [u] /\ id u = next_id db
        /\ ~ In (reg_no u) (map reg_no db) /\ ~ In (email u) (map email db)
        /\ (email u = [] \/ forallb is_address_char (email u) = true))
  \/ (exists i, db' = delete_row i db).
Proof.
  intros Hh.
  destruct r as [now data | rnd pick | today | method today reg_no'
                | today | now data_email]; cbn [handle] in Hh.
  - destruct (register now data db) as [o | ] eqn:Er; [ | discriminate].
    injection Hh as <-.
    destruct (response o) as [body | st msg | ] eqn:Eresp.
    + right. left.
      destruct (register_accepted _ _ _ _ _ Er Eresp)
        as (u & Ht & _ & _ & Hid & _ & _ & _ & _ & _ & He & _ & _ & _ & _ & _ & _ & Huniq).
      exists u. split; [assumption | ]. split; [assumption | ].
      split; [ | split].
      * intros Hin. apply in_map_iff in Hin. destruct Hin as (x & E & Hx).
        pose proof (existsb_false_forall _ _ Huniq x Hx) as Hf. cbn in Hf.
        rewrite E, pystr_eqb_refl in Hf. discriminate.
      * intros Hin. apply in_map_iff in Hin. destruct Hin as (x & E & Hx).
        pose proof (existsb_false_forall _ _ Huniq x Hx) as Hf. cbn in Hf.
        rewrite E, pystr_eqb_refl, orb_true_r in Hf. discriminate.
      * destruct (generate_email_address db _ _ He) as [[_ ->] | (_ & Hc & _)]; auto.
    + left. destruct (register_cases _ _ _ _ Er) as [(-> & _) | (u & _ & _ & C & _)];
        [reflexivity | congruence].
    + left. destruct (register_cases _ _ _ _ Er) as [(-> & _) | (u & _ & _ & C & _)];
        [reflexivity | congruence].
  - injection Hh as <-. left.
    destruct (recognize_cases rnd pick db)
      as [(_ & _ & user & Hu & -> & _) | (_ & -> & _)]; [ | reflexivity].
    now apply map_set_row with (x := user).
  - injection Hh as <-. now left.
  - injection Hh as <-.
    destruct (admin_user_table method today reg_no' db) as [-> | (i & ->)];
      [now left | right; right; now exists i].
  - injection Hh as <-. left. now rewrite export_excel_table.
  - injection Hh as <-. left.
    unfold check_status.
    destruct (is_empty _); [reflexivity | ].
    destruct (first_index _ db) as [i | ]; [ | reflexivity].
    destruct (nth_error db i) as [user | ] eqn:Eu; [ | reflexivity].
    destruct (get_working_days_in_month _ _); [ | reflexivity].
    destruct (negb _); cbn [table_after]; rewrite ?set_row_set_row;
      now apply map_set_row with (x := user).
Qed.

Lemma reachable_keys (db : table) :
  reachable db ->
  NoDup (map id db) /\ NoDup (map reg_no db) /\ NoDup (map email db)
  /\ Forall (fun u => email u = [] \/ forallb is_address_char (email u) = true) db.
Proof.
  induction 1 as [ | r db db' Hreach (Hid & Hreg & Hem & Haddr) Hh].
  - repeat split; constructor.
  - destruct (handle_keys r db db' Hh)
      as [Hk | [(u & -> & Hu & Hr & He & Ha) | (i & ->)]].
    + assert (Eid : map id db' = map id db).
      { apply (f_equal (map (fun k : Z * pystr * pystr => fst (fst k)))) in Hk.
        now rewrite !map_map in Hk. }
      assert (Ereg : map reg_no db' = map reg_no db).
      { apply (f_equal (map (fun k : Z * pystr * pystr => snd (fst k)))) in Hk.
        now rewrite !map_map in Hk. }
      assert (Eem : map email db' = map email db).
      { apply (f_equal (map (fun k : Z * pystr * pystr => snd k))) in Hk.
        now rewrite !map_map in Hk. }
      rewrite Eid, Ereg, Eem. repeat split; try assumption.
      apply Forall_forall. intros x Hx.
      assert (Hin : In (email x) (map email db)) by (rewrite <- Eem; now apply in_map).
      apply in_map_iff in Hin. destruct Hin as (y & E & Hy).
      rewrite Forall_forall in Haddr. rewrite <- E. now apply Haddr.
    + rewrite !map_app. cbn [map]. repeat split.
      * apply NoDup_app_snoc; [assumption | ]. intros Hin.
        apply in_map_iff in Hin. destruct Hin as (x & E & Hx).
        pose proof (id_below_next_id db x Hx). lia.
      * now apply NoDup_app_snoc.
      * now apply NoDup_app_snoc.
      * apply Forall_app. split; [assumption | now constructor].
    + repeat split; try now apply NoDup_map_delete_row.
      rewrite Forall_forall in *. intros x Hx. apply Haddr. now apply delete_row_In in Hx.
Qed.

(** X9: in every table the application can reach, no two rows share a key,
    a registration number or an address, and no two addresses agree when
    compared in lower case. *)
Theorem reachable_rows_unique (db : table) :
  reachable db ->
  NoDup (map id db) /\ NoDup (map reg_no db) /\ NoDup (map email db)
  /\ NoDup (map (fun u => str_lower (email u)) db).
Proof.
  intros Hreach. destruct (reachable_keys db Hreach) as (Hid & Hreg & Hem & Haddr).
  repeat split; try assumption.
  replace (map (fun u => str_lower (email u)) db) with (map email db); [assumption | ].
  apply map_ext_in. intros u Hu. rewrite Forall_forall in Haddr.
  destruct (Haddr u Hu) as [-> | Hc].
  - rewrite str_lower_ascii by reflexivity. reflexivity.
  - symmetry. now apply str_lower_address.
Qed.
End ReachableTables.

(** ** Deleting a user *)

Lemma length_delete_row (i : nat) (x : User) (db : table) :
  nth_error db i = Some x -> S (length (delete_row i db)) = length db.
Proof.
  revert i. induction db as [ | y rest IH]; intros [ | i]; cbn [nth_error delete_row length];
    try discriminate.
  - reflexivity.
  - intros Hx. now rewrite (IH i Hx).
Qed.

Lemma delete_row_keeps (i : nat) (x y : User) (db : table) :
  nth_error db i = Some x -> In y db -> y = x \/ In y (delete_row i db).
Proof.
  revert i. induction db as [ | z rest IH]; intros [ | i]; cbn [nth_error delete_row];
    try discriminate.
  - intros [= ->] [-> | Hy]; [now left | now right].
  - intros Hx [-> | Hy]; [right; now left | ].
    destruct (IH i Hx Hy) as [-> | Hin]; [now left | right; now right].
Qed.

Lemma deleted_key_is_gone {B : Type} (f : User -> B) (i : nat) (x : User) (db : table) :
  NoDup (map f db) -> nth_error db i = Some x -> ~ In (f x) (map f (delete_row i db)).
Proof.
  revert i. induction db as [ | z rest IH]; intros [ | i]; cbn [nth_error delete_row map];
    try discriminate; intros Hnd Hx; inversion Hnd as [ | ? ? Hz Hrest]; subst.
  - injection Hx as ->. assumption.
  - intros [E | Hin]; [ | now apply (IH i Hrest Hx)].
    apply Hz. rewrite E. apply in_map. now apply nth_error_In in Hx.
Qed.

(** X11: a number that no row carries is answered with status 404, for a
    lookup as for a deletion, and nothing is written.  A deletion of a number
    that a row carries removes the first such row and no other, in one
    commit; when the numbers of the table are distinct, the number is unknown
    afterwards. *)
Theorem admin_user_delete (today : datetime) (reg_no' : pystr) (db : table) :
  (existsb (fun u => pystr_eqb (reg_no u) reg_no') db = false ->
   forall method,
     admin_user method today reg_no' db = mk_outcome (Error 404 (py "User not found")) db [])
  /\ (forall i user,
        first_index (fun u => pystr_eqb (reg_no u) reg_no') db = Some i ->
        nth_error db i = Some user ->
        let o := admin_user DELETE today reg_no' db in
        reg_no user = reg_no'
        /\ table_after o = delete_row i db
        /\ commits o = [delete_row i db]
        /\ S (length (table_after o)) = length db
        /\ (forall x, In x (table_after o) -> In x db)
        /\ (forall x, In x db -> x = user \/ In x (table_after o))
        /\ (NoDup (map reg_no db) ->
            forall method today',
              admin_user method today' reg_no' (table_after o)
              = mk_outcome (Error 404 (py "User not found")) (table_after o) [])).
Proof.
  assert (Hnone : forall (t : table) method today',
             existsb (fun u => pystr_eqb (reg_no u) reg_no') t = false ->
             admin_user method today' reg_no' t
             = mk_outcome (Error 404 (py "User not found")) t []).
  { intros t method today' Hno. unfold admin_user.
    destruct (first_index _ t) as [i | ] eqn:Ei; [ | reflexivity].
    apply first_index_Some in Ei. destruct Ei as (u & Hu & Hp).
    apply nth_error_In in Hu.
    rewrite (existsb_false_forall _ _ Hno u Hu) in Hp. discriminate. }
  split; [intros Hno method; now apply Hnone | ].
  intros i user Hi Hu o.
  destruct (first_index_Some _ _ _ Hi) as (u' & Hu' & Hp).
  rewrite Hu in Hu'. injection Hu' as <-. apply pystr_eqb_eq in Hp.
  unfold o, admin_user. rewrite Hi, Hu. cbn [table_after commits].
  split; [assumption | ]. split; [reflexivity | ]. split; [reflexivity | ].
  split; [now apply length_delete_row with (x := user) | ].
  split; [intros x; apply delete_row_In | ].
  split; [intros x; now apply delete_row_keeps | ].
  intros Hnd method today'. apply Hnone.
  apply not_true_is_false. intros C. apply existsb_exists in C.
  destruct C as (x & Hx & Hq). apply pystr_eqb_eq in Hq.
  apply (deleted_key_is_gone reg_no i user db Hnd Hu).
  rewrite Hp, <- Hq. now apply in_map.
Qed.

(** ** Attendance on record *)

Lemma total_attendance_app (a b : table) :
  total_attendance (a ++ b) = total_attendance a + total_attendance b.
Proof.
  unfold total_attendance. induction a as [ | x a IH]; cbn [app fold_right]; lia.
Qed.

Lemma total_attendance_set_row (i : nat) (x u : User) (db : table) :
  nth_error db i = Some x ->
  total_attendance (set_row i u db)
  = total_attendance db - attendance_count x + attendance_count u.
Proof.
  unfold total_attendance.
  revert i. induction db as [ | y rest IH]; intros [ | i]; cbn [nth_error set_row fold_right];
    try discriminate.
  - intros [= ->]. lia.
  - intros Hx. rewrite (IH i Hx). lia.
Qed.

Lemma total_attendance_counters (db db' : table) :
  counters db' = counters db -> total_attendance db' = total_attendance db.
Proof.
  unfold counters, total_attendance. revert db'.
  induction db as [ | x db IH]; intros [ | y db']; cbn [map fold_right];
    try discriminate; [reflexivity | ].
  intros [= _ Hc Hrest]. rewrite (IH db' Hrest). lia.
Qed.

Section Attendance.
Context `{PyLib}.

(** X13: a recognition adds exactly one to the attendance on record when
    there is a user and the draw is under one half, and nothing otherwise;
    no request other than a recognition or a deletion changes that total. *)
Theorem recognize_total_attendance (rnd : float) (pick : nat) (db : table) :
  total_attendance (table_after (recognize rnd pick db))
  = total_attendance db
    + match db with
      | [] => 0
      | _ :: _ => if (rnd <? 0.5)%float then 1 else 0
      end
  /\ forall r db',
      handle r db = Some db' ->
      (forall rnd' pick', r <> POST_recognize rnd' pick') ->
      (forall today reg_no', r <> ANY_admin_user DELETE today reg_no') ->
      total_attendance db' = total_attendance db.
Proof.
  split.
  - destruct (recognize_cases rnd pick db)
      as [(Hne & Hr & user & Hu & -> & _) | ([-> | Hr] & -> & _)].
    + rewrite (total_attendance_set_row _ user _ _ Hu). cbn [attendance_count set_attendance_count].
      destruct db; [congruence | ]. rewrite Hr. lia.
    + reflexivity.
    + destruct db; [reflexivity | ]. rewrite Hr. lia.
  - intros r db' Hh Hrec Hdel.
    destruct r as [now data | rnd' pick' | today | method today reg_no'
                  | today | now data_email]; cbn [handle] in Hh.
    + destruct (register now data db) as [o | ] eqn:Er; [ | discriminate].
      injection Hh as <-.
      destruct (register_cases _ _ _ _ Er)
        as [(-> & _) | (u & -> & _ & _ & _ & _ & _ & _ & Hc & _)]; [reflexivity | ].
      rewrite total_attendance_app. unfold total_attendance at 2. cbn [fold_right]. lia.
    + now destruct (Hrec rnd' pick').
    + now injection Hh as <-.
    + injection Hh as <-. destruct method; [ | now destruct (Hdel today reg_no')].
      unfold admin_user. destruct (first_index _ db) as [i | ]; [ | reflexivity].
      now destruct (nth_error db i).
    + injection Hh as <-. now rewrite export_excel_table.
    + injection Hh as <-. apply total_attendance_counters.
      apply same_counter_rows, check_status_table.
Qed.
End Attendance.

(** ** Age *)

(** X14: the age shown for a user is the number of birthdays reached: it is
    [n] exactly when the day the user completes [n] years has come and the
    day of [n + 1] years has not. *)
Theorem age_counts_birthdays (today : datetime) (u : User) (n : Z) :
  age today u = n
  <-> birthday_reached n (dob u) today /\ ~ birthday_reached (n + 1) (dob u) today.
Proof.
  unfold age, birthday_reached, ymd_le.
  destruct (Z.ltb_spec (dt_month today) (d_month (dob u)));
    destruct (Z.eqb_spec (dt_month today) (d_month (dob u)));
    destruct (Z.ltb_spec (dt_day today) (d_day (dob u)));
    cbn [orb andb]; lia.
Qed.

(** ** The next registration number *)

Section NextNumber.
Context `{PyLib} {laws : PyLibLaws}.

(** X15: the number about to be handed out is matched by the filter of its
    own year, parses back to one more than the largest suffix of that year,
    lies above every suffix of that year that parses, is on no row, and is
    [year-XYZ-0001] when the year has no row. *)
Theorem next_reg_no_round_trip (now : datetime) (db : table) :
  valid_now now ->
  let year := dt_year now in
  let largest := max_or_zero (parsed_suffixes (same_year_rows year db)) in
  let next := generate_next_reg_no now db in
  sql_like_prefix (reg_prefix year (py "XYZ")) next = true
  /\ parse_suffix next = Some (largest + 1)
  /\ (forall x n, In x (same_year_rows year db) -> parse_suffix (reg_no x) = Some n ->
                  n < largest + 1)
  /\ (forall x, In x db -> reg_no x <> next)
  /\ (same_year_rows year db = [] -> next = str_int year ++ py "-XYZ-0001").
Proof.
  intros (Hy & _) year largest next.
  pose proof (max_or_zero_nonneg (parsed_suffixes (same_year_rows year db))) as Hpos.
  fold largest in Hpos.
  assert (E : next = reg_prefix year (py "XYZ") ++ zfill 4 (str_int (largest + 1)))
    by apply generate_next_reg_no_eq.
  split; [rewrite E; apply sql_like_prefix_app | ].
  split; [rewrite E; apply parse_suffix_generated; lia | ].
  split.
  { intros x n Hx Hn. pose proof (parsed_suffix_le_max _ _ _ Hx Hn) as Hle.
    unfold largest. lia. }
  split; [intros x Hx; apply reg_no_fresh; [lia | assumption] | ].
  intros Hnone. rewrite E. unfold largest. rewrite Hnone. unfold reg_prefix.
  rewrite <- !app_assoc. reflexivity.
Qed.
End NextNumber.

(** ** Refused registrations and runs of requests *)

Section Refusals.
Context `{PyLib}.


Lemma recognized_total (r : request) (db db' : table) :
  handle r db = Some db' -> is_deletion r = false ->
  total_attendance db' = total_attendance db + recognized r db.
Proof.
  intros Hh Hd.
  destruct r as [now data | rnd pick | today | method today reg_no'
                | today | now data_email]; cbn [handle recognized] in *.
  - destruct (register now data db) as [o | ] eqn:Er; [ | discriminate].
    injection Hh as <-.
    destruct (register_cases _ _ _ _ Er)
      as [(-> & _) | (u & -> & _ & _ & _ & _ & _ & _ & Hc & _)]; [lia | ].
    rewrite total_attendance_app. unfold total_attendance at 2. cbn [fold_right]. lia.
  - injection Hh as <-.
    destruct (recognize_cases rnd pick db)
      as [(_ & _ & user & Hu & -> & _ & msg & ->) | (_ & -> & _ & msg & ->)]; [ | lia].
    rewrite (total_attendance_set_row _ user _ _ Hu).
    cbn [attendance_count set_attendance_count]. lia.
  - injection Hh as <-. cbn [table_after admin_users]. lia.
  - injection Hh as <-. destruct method; [ | discriminate].
    unfold admin_user. destruct (first_index _ db) as [i | ]; [ | cbn [table_after]; lia].
    destruct (nth_error db i); cbn [table_after]; lia.
  - injection Hh as <-. rewrite export_excel_table. lia.
  - injection Hh as <-.
    rewrite (total_attendance_counters db _
               (proj1 (same_counter_rows _ _ (check_status_table now data_email db)))).
    lia.
Qed.

(** X17: over any run of requests that deletes no user, the attendance on
    record grows by exactly the number of recognitions that were answered as
    recognized. *)
Theorem run_total_attendance (rs : list request) :
  forallb (fun r => negb (is_deletion r)) rs = true ->
  forall db final n,
    run rs db = Some (final, n) ->
    total_attendance final = total_attendance db + n.
Proof.
  induction rs as [ | r rest IH]; intros Hrs db final n; cbn [run].
  - intros [= <- <-]. lia.
  - cbn [forallb] in Hrs. apply andb_prop in Hrs. destruct Hrs as [Hr Hrest].
    apply negb_true_iff in Hr.
    destruct (handle r db) as [db' | ] eqn:Hh; [ | discriminate].
    destruct (run rest db') as [[final' n'] | ] eqn:Hrun; [ | discriminate].
    intros [= <- <-]. rewrite (IH Hrest _ _ _ Hrun), (recognized_total _ _ _ Hh Hr). lia.
Qed.
End Refusals.

(** ** Examples for the further properties *)


Lemma register_commit_is_unique_witness :
  @generate_email ascii_lib [ada_row] (py "Ada Lovelace")
  = Some (py "ada.lovelace1@company.com")
  /\ ~ In (@generate_next_reg_no ascii_lib mid_february_2024 [ada_row]) (map reg_no [ada_row])
  /\ ~ In (py "ada.lovelace1@company.com") (map email [ada_row]).
Proof.
  assert (He : @generate_email ascii_lib [ada_row] (py "Ada Lovelace")
               = Some (py "ada.lovelace1@company.com")) by (vm_compute; reflexivity).
  split; [exact He | ].
  apply (@register_commit_is_unique ascii_lib ascii_lib_laws mid_february_2024 [ada_row]
           (py "Ada Lovelace") (py "ada.lovelace1@company.com")).
  - unfold valid_now. simpl. lia.
  - exact He.
  - vm_compute. reflexivity.
Defined.

Lemma register_same_name_refused_witness :
  @register ascii_lib mid_march_2024 (request_for (py "  MADONNA "))
    [first_row_2024 (py "Madonna") (py "madonna@company.com")]
  = Some (mk_outcome
            (Error 400 (py "User with name " ++ quoted (py "MADONNA")
                        ++ py " already registered."))
            [first_row_2024 (py "Madonna") (py "madonna@company.com")] []).
Proof.
  assert (Hr : @register ascii_lib mid_february_2024 (request_for (py "Madonna")) []
               = Some (mk_outcome
                         (Json {| rb_reg_no := py "2024-XYZ-0001";
                                  rb_email := py "madonna@company.com";
                                  rb_name := py "Madonna" |})
                         [first_row_2024 (py "Madonna") (py "madonna@company.com")]
                         [[first_row_2024 (py "Madonna") (py "madonna@company.com")]]))
    by (vm_compute; reflexivity).
  apply (@register_same_name_refused ascii_lib ascii_lib_laws mid_february_2024
           mid_march_2024 (request_for (py "Madonna")) (request_for (py "  MADONNA ")) []
           _ _ Hr eq_refl);
    try (vm_compute; discriminate); vm_compute; reflexivity.
Defined.

Lemma reachable_rows_unique_witness :
  NoDup (map email [first_row_2024 (py "Madonna") (py "madonna@company.com")])
  /\ NoDup (map (fun u => @str_lower ascii_lib (email u))
              [first_row_2024 (py "Madonna") (py "madonna@company.com")]).
Proof.
  assert (Hreach : @reachable ascii_lib
                     [first_row_2024 (py "Madonna") (py "madonna@company.com")]).
  { apply (@reachable_handle ascii_lib
             (POST_register mid_february_2024 (request_for (py "Madonna"))) []).
    - apply reachable_empty.
    - vm_compute. reflexivity. }
  destruct (@reachable_rows_unique ascii_lib ascii_lib_laws _ Hreach) as (_ & _ & He & Hl).
  split; assumption.
Defined.

Lemma register_then_lookup_witness :
  exists v,
    @admin_user GET mid_march_2024 (py "2024-XYZ-0001")
      [first_row_2024 (py "Madonna") (py "madonna@company.com")]
    = mk_outcome (Json (Found v))
        [first_row_2024 (py "Madonna") (py "madonna@company.com")] []
    /\ v_name v = py "Madonna" /\ v_email v = py "madonna@company.com"
    /\ v_attendance_count v = 0.
Proof.
  assert (Hr : @register ascii_lib mid_february_2024 (request_for (py "Madonna")) []
               = Some (mk_outcome
                         (Json {| rb_reg_no := py "2024-XYZ-0001";
                                  rb_email := py "madonna@company.com";
                                  rb_name := py "Madonna" |})
                         [first_row_2024 (py "Madonna") (py "madonna@company.com")]
                         [[first_row_2024 (py "Madonna") (py "madonna@company.com")]]))
    by (vm_compute; reflexivity).
  destruct (@register_then_lookup ascii_lib mid_february_2024 mid_march_2024
              (request_for (py "Madonna")) [] _ _ Hr eq_refl)
    as (v & Hv & _ & Hn & He & _ & Hc).
  exists v. repeat split; assumption.
Defined.

Lemma register_then_status_witness :
  response (@check_status ascii_lib mid_march_2024 (py "madonna@company.com")
              [first_row_2024 (py "Madonna") (py "madonna@company.com")])
  = Json {| s_name := py "Madonna"; s_attendance_count := 0; s_leaves_taken := 0;
            s_attendance_percent := 100; s_messages := [great_message] |}
  /\ response (@check_status ascii_lib mid_march_2024 [] [first_row_2024 (py "123") []])
     = Error 400 (py "Please enter an email address.").
Proof.
  assert (Hr : @register ascii_lib mid_february_2024 (request_for (py "Madonna")) []
               = Some (mk_outcome
                         (Json {| rb_reg_no := py "2024-XYZ-0001";
                                  rb_email := py "madonna@company.com";
                                  rb_name := py "Madonna" |})
                         [first_row_2024 (py "Madonna") (py "madonna@company.com")]
                         [[first_row_2024 (py "Madonna") (py "madonna@company.com")]]))
    by (vm_compute; reflexivity).
  assert (Hr' : @register ascii_lib mid_february_2024 (request_for (py "123")) []
                = Some (mk_outcome
                          (Json {| rb_reg_no := py "2024-XYZ-0001"; rb_email := [];
                                   rb_name := py "123" |})
                          [first_row_2024 (py "123") []] [[first_row_2024 (py "123") []]]))
    by (vm_compute; reflexivity).
  assert (Hnow : valid_now mid_march_2024) by (unfold valid_now; simpl; lia).
  split.
  - apply (@register_then_status ascii_lib ascii_lib_laws mid_february_2024 mid_march_2024
             (request_for (py "Madonna")) [] _ _ Hr eq_refl Hnow).
    discriminate.
  - apply (@register_then_status ascii_lib ascii_lib_laws mid_february_2024 mid_march_2024
             (request_for (py "123")) [] _ _ Hr' eq_refl Hnow).
    reflexivity.
Defined.

Lemma next_reg_no_round_trip_witness :
  @generate_next_reg_no ascii_lib mid_february_2024 [] = py "2024-XYZ-0001"
  /\ @parse_suffix ascii_lib (@generate_next_reg_no ascii_lib mid_february_2024
                               [ada_row; grace_row]) = Some 3.
Proof.
  assert (Hnow : valid_now mid_february_2024) by (unfold valid_now; simpl; lia).
  split.
  - destruct (@next_reg_no_round_trip ascii_lib ascii_lib_laws mid_february_2024 [] Hnow)
      as (_ & _ & _ & _ & Hfirst).
    rewrite Hfirst by reflexivity. vm_compute. reflexivity.
  - destruct (@next_reg_no_round_trip ascii_lib ascii_lib_laws mid_february_2024
                [ada_row; grace_row] Hnow) as (_ & Hparse & _).
    rewrite Hparse. vm_compute. reflexivity.
Defined.

Lemma generate_email_shape_witness :
  exists local,
    @generate_email ascii_lib [ada_row] (py "Ada Lovelace")
    = Some (local ++ py "@company.com")
    /\ local = py "ada.lovelace1".
Proof.
  destruct (@generate_email_shape ascii_lib ascii_lib_laws [ada_row] (py "Ada Lovelace"))
    as (e & local & He & El & _).
  - vm_compute. discriminate.
  - exists local. rewrite <- El. split; [exact He | ].
    assert (Ee : e = py "ada.lovelace1@company.com").
    { vm_compute in He. injection He as <-. reflexivity. }
    rewrite Ee in El. change (py "ada.lovelace1@company.com")
      with (py "ada.lovelace1" ++ py "@company.com") in El.
    apply app_inv_tail in El. now symmetry.
Defined.

Lemma run_total_attendance_witness :
  @run ascii_lib
    [POST_register mid_february_2024 (request_for (py "Madonna"));
     POST_recognize 0.25%float 3; POST_recognize 0.75%float 3;
     POST_status mid_march_2024 (py "madonna@company.com");
     POST_recognize 0.125%float 8] []
  = Some ([set_messages (Some great_message)
             (set_last_leave_month (Some (py "2024-3"))
                (set_attendance_count 2
                   (first_row_2024 (py "Madonna") (py "madonna@company.com"))))], 2)
  /\ total_attendance
       [set_messages (Some great_message)
          (set_last_leave_month (Some (py "2024-3"))
             (set_attendance_count 2
                (first_row_2024 (py "Madonna") (py "madonna@company.com"))))]
     = total_attendance [] + 2.
Proof.
  assert (Hrun : @run ascii_lib
                   [POST_register mid_february_2024 (request_for (py "Madonna"));
                    POST_recognize 0.25%float 3; POST_recognize 0.75%float 3;
                    POST_status mid_march_2024 (py "madonna@company.com");
                    POST_recognize 0.125%float 8] []
                 = Some ([set_messages (Some great_message)
                            (set_last_leave_month (Some (py "2024-3"))
                               (set_attendance_count 2
                                  (first_row_2024 (py "Madonna")
                                     (py "madonna@company.com"))))], 2))
    by (vm_compute; reflexivity).
  split; [exact Hrun | ].
  eapply (@run_total_attendance ascii_lib); [ | exact Hrun].
  reflexivity.
Defined.


Lemma admin_user_delete_witness :
  table_after (admin_user DELETE mid_march_2024 (py "2024-XYZ-0001") [ada_row; grace_row])
  = [grace_row]
  /\ admin_user GET mid_march_2024 (py "2024-XYZ-0001") [grace_row]
     = mk_outcome (Error 404 (py "User not found")) [grace_row] [].
Proof.
  destruct (admin_user_delete mid_march_2024 (py "2024-XYZ-0001") [ada_row; grace_row])
    as [_ Hdel].
  destruct (Hdel 0%nat ada_row eq_refl eq_refl) as (_ & Ht & _ & _ & _ & _ & Hgone).
  split; [exact Ht | ].
  rewrite Ht in Hgone. apply Hgone.
  repeat constructor; cbn; intuition discriminate.
Defined.

(** ** The next registration number, read off the stored text *)

Lemma split_on_fields (s : pystr) :
  split_on 45%N s
  = before_hyphen s :: match after_hyphen s with
                       | Some t => split_on 45%N t
                       | None => []
                       end.
Proof.
  induction s as [ | c t IH]; [reflexivity | ]. cbn [split_on before_hyphen after_hyphen].
  destruct (c =? 45)%N; [reflexivity | ]. now rewrite IH.
Qed.

Lemma before_hyphen_digits (s : pystr) :
  forallb is_ascii_digit s = true -> before_hyphen s = s /\ after_hyphen s = None.
Proof.
  induction s as [ | c t IH]; [now split | ]. cbn [forallb before_hyphen after_hyphen].
  intros Hs. apply andb_prop in Hs. destruct Hs as [Hc Ht].
  assert (E : (c =? 45)%N = false).
  { unfold is_ascii_digit in Hc. apply andb_prop in Hc. destruct Hc as [H1 _].
    apply N.leb_le in H1. apply N.eqb_neq. lia. }
  rewrite E. destruct (IH Ht) as [-> ->]. now split.
Qed.

Lemma after_hyphen_app (a b : pystr) :
  after_hyphen a = None -> after_hyphen (a ++ 45%N :: b) = Some b.
Proof.
  induction a as [ | c t IH]; cbn [app after_hyphen].
  - intros _. now rewrite N.eqb_refl.
  - destruct (c =? 45)%N; [discriminate | exact IH].
Qed.

Section NextNumberSpec.
Context `{PyLib}.

(** The loop reads a number as the statement does: third field, as an integer. *)
Lemma parse_suffix_numeric (r : pystr) : parse_suffix r = numeric_suffix r.
Proof.
  unfold parse_suffix, numeric_suffix, third_field. rewrite split_on_fields.
  destruct (after_hyphen r) as [a | ]; [ | reflexivity].
  rewrite split_on_fields. destruct (after_hyphen a) as [b | ]; [ | reflexivity].
  rewrite split_on_fields. reflexivity.
Qed.

Lemma parsed_suffixes_numeric (users : list User) :
  parsed_suffixes users = numeric_suffixes users.
Proof.
  unfold parsed_suffixes, numeric_suffixes. apply flat_map_ext. intros u.
  now rewrite parse_suffix_numeric.
Qed.

Lemma same_year_rows_matching (year : Z) (db : table) :
  same_year_rows year db = matching_rows year db.
Proof.
  unfold same_year_rows, matching_rows, reg_prefix. apply filter_ext. intros u.
  reflexivity.
Qed.

Context {laws : PyLibLaws}.

(** The third field of [year-XYZ-digits] is the digits. *)
Lemma third_field_well_formed (year : Z) (s : pystr) :
  0 <= year -> forallb is_ascii_digit s = true ->
  third_field (str_int year ++ py "-XYZ-" ++ s) = Some s.
Proof.
  intros Hy Hs. unfold third_field.
  rewrite str_int_nonneg by assumption.
  destruct (digits_spec year Hy) as (_ & Hd & _).
  change (py "-XYZ-" ++ s) with (45%N :: py "XYZ" ++ 45%N :: s).
  rewrite after_hyphen_app by now apply before_hyphen_digits.
  rewrite (after_hyphen_app (py "XYZ") s) by reflexivity.
  now rewrite (proj1 (before_hyphen_digits s Hs)).
Qed.

(** C6: whatever the table holds, the next registration number is the
    current year, the code XYZ and a suffix.  The suffix is one more than the
    largest numeric suffix among the rows whose number begins with that year
    and code (0 when there is none), written in decimal and filled with
    zeros to four digits; the numeric suffix of a row is the third
    hyphen-separated field of its number read as an integer, and a row where
    that fails is passed over without any effect.  A row numbered
    [year-XYZ-digits] is read as those digits, and the next suffix lies
    above it. *)
Theorem generate_next_reg_no_spec (now : datetime) (db : table) :
  valid_now now ->
  let year := dt_year now in
  let rows := matching_rows year db in
  let next_suffix := max_or_zero (numeric_suffixes rows) + 1 in
  let suffix := zfill 4 (str_int next_suffix) in
  generate_next_reg_no now db = str_int year ++ py "-XYZ-" ++ suffix
  /\ forallb is_ascii_digit suffix = true
  /\ digits_value suffix = next_suffix
  /\ length suffix = Nat.max 4 (length (str_int next_suffix))
  /\ (forall u before after,
        db = before ++ u :: after -> numeric_suffix (reg_no u) = None ->
        generate_next_reg_no now db = generate_next_reg_no now (before ++ after))
  /\ (forall x s,
        In x db -> reg_no x = str_int year ++ py "-XYZ-" ++ s ->
        s <> [] -> forallb is_ascii_digit s = true ->
        In x rows
        /\ numeric_suffix (reg_no x) = Some (digits_value s)
        /\ digits_value s < next_suffix).
Proof.
  intros (Hy & _) year rows next_suffix suffix.
  destruct (generate_next_reg_no_parsed now db) as (Heq & Hall & Hval & Hlen & Hskip).
  rewrite same_year_rows_matching, parsed_suffixes_numeric in Heq, Hall, Hval, Hlen.
  fold year rows next_suffix suffix in Heq, Hall, Hval, Hlen.
  split; [exact Heq | ]. split; [exact Hall | ]. split; [exact Hval | ].
  split; [exact Hlen | ]. split.
  - intros u before after Hdb Hu. apply (Hskip u before after Hdb).
    now rewrite parse_suffix_numeric.
  - intros x s Hx Hr Hne Hs.
    assert (Hrow : In x rows).
    { unfold rows, matching_rows. apply filter_In. split; [assumption | ].
      rewrite Hr, app_assoc. apply sql_like_prefix_app. }
    assert (Hnum : numeric_suffix (reg_no x) = Some (digits_value s)).
    { unfold numeric_suffix. rewrite Hr, third_field_well_formed by (try assumption; lia).
      now apply py_int_digits. }
    split; [exact Hrow | ]. split; [exact Hnum | ].
    rewrite <- parse_suffix_numeric in Hnum.
    unfold rows in Hrow. rewrite <- same_year_rows_matching in Hrow.
    pose proof (parsed_suffix_le_max _ _ _ Hrow Hnum) as Hle.
    rewrite same_year_rows_matching, parsed_suffixes_numeric in Hle.
    unfold next_suffix, rows. lia.
Qed.
End NextNumberSpec.

(** A row of 2024 numbered 7, one whose suffix is no numeral and one of 2023
    numbered 100: the next number of 2024 is 8. *)
Lemma generate_next_reg_no_spec_witness :
  @generate_next_reg_no ascii_lib mid_february_2024
    [row_numbered 1 (py "2024-XYZ-0007"); row_numbered 2 (py "2024-XYZ-abc");
     row_numbered 3 (py "2023-XYZ-0100")]
  = py "2024-XYZ-0008"
  /\ @numeric_suffix ascii_lib (py "2024-XYZ-0007") = Some 7
  /\ 7 < 8.
Proof.
  assert (Hnow : valid_now mid_february_2024) by (unfold valid_now; simpl; lia).
  destruct (@generate_next_reg_no_spec ascii_lib ascii_lib_laws mid_february_2024
              [row_numbered 1 (py "2024-XYZ-0007"); row_numbered 2 (py "2024-XYZ-abc");
               row_numbered 3 (py "2023-XYZ-0100")] Hnow)
    as (Heq & _ & _ & _ & _ & Hrows).
  split.
  - rewrite Heq. vm_compute. reflexivity.
  - destruct (Hrows (row_numbered 1 (py "2024-XYZ-0007")) (py "0007")) as (_ & Hn & _).
    + now left.
    + reflexivity.
    + discriminate.
    + reflexivity.
    + split; [exact Hn | lia].
Defined.

(** ** Registration numbers across requests *)


Section NumbersAcrossRequests.
Context `{PyLib}.



Context {laws : PyLibLaws}.





End NumbersAcrossRequests.


